(** * Report generation pipeline of the study-tracking backend

    A shallow embedding of [backend/src/backend.py] (the attempt formatter,
    the Bedrock generation client, the fallback report and the
    [/generate-report] handler) and of the stand-alone client in
    [backend/src/ai_handler/experiment.py], followed by the properties of
    the pipeline.

    Python values are the values a JSON body decodes to.  Strings are kept
    as their UTF-8 bytes; concatenation and emptiness agree with Python's
    [str] on that encoding. *)

From Stdlib Require PrimFloat.
From Stdlib Require Import Ascii.
From stdpp Require Import gmap strings list fin_maps pretty.

#[local] Set Warnings "-register-all".

(** ** Python values *)

Inductive pyval : Type :=
  | PNone
  | PBool (b : bool)
  | PInt (z : Z)
  | PFloat (f : PrimFloat.float)
  | PStr (s : string)
  | PList (l : list pyval)
  | PDict (d : gmap string pyval).

(** An attempt record is a [dict]: the request model declares
    [attempts: List[dict]], so every element reaching the handlers is one. *)
Abbreviation attempt := (gmap string pyval).

(** Exceptions raised by the builtins used in the pipeline.  All of them are
    subclasses of [Exception], which is what the client's handler catches;
    [ClientError] stands for whatever the service binding raises
    (transport, credentials, parameter validation). *)
Inductive exn : Type :=
  | KeyError (key : pyval)
  | IndexError
  | TypeError
  | AttributeError
  | ValidationError
  | ClientError (msg : string).

Inductive result (A : Type) : Type :=
  | Ok (a : A)
  | Raise (e : exn).
Arguments Ok {A} a.
Arguments Raise {A} e.

#[global] Instance result_ret : MRet result := λ A, Ok.
#[global] Instance result_bind : MBind result := λ A B f m,
  match m with
  | Ok a => f a
  | Raise e => Raise e
  end.

Definition nl : string := String "010"%char EmptyString.
Definition dq : string := String "034"%char EmptyString.

(** ** Builtins *)

(** [bool(v)] *)
Definition py_truthy (v : pyval) : bool :=
  match v with
  | PNone => false
  | PBool b => b
  | PInt z => negb (z =? 0)%Z
  | PFloat f => negb (PrimFloat.eqb f PrimFloat.zero)
  | PStr s => negb (String.eqb s EmptyString)
  | PList l => negb (bool_decide (l = []))
  | PDict d => negb (bool_decide (d = ∅))
  end.

(** [v == s] and [v != s] for a [str] literal [s]: only an equal [str] is
    equal to it. *)
Definition py_eq_str (v : pyval) (s : string) : bool :=
  match v with
  | PStr t => String.eqb t s
  | _ => false
  end.

Definition py_ne_str (v : pyval) (s : string) : bool := negb (py_eq_str v s).

(** [v.get(key, dflt)]: only a [dict] has the method. *)
Definition py_get (v : pyval) (key : string) (dflt : pyval) : result pyval :=
  match v with
  | PDict d => Ok (default dflt (d !! key))
  | _ => Raise AttributeError
  end.

(** [v['key']] *)
Definition py_getitem (v : pyval) (key : string) : result pyval :=
  match v with
  | PDict d =>
      match d !! key with
      | Some x => Ok x
      | None => Raise (KeyError (PStr key))
      end
  | _ => Raise TypeError
  end.

(** Width in bytes of the UTF-8 sequence that starts with byte [c]. *)
Definition utf8_width (c : ascii) : nat :=
  let n := nat_of_ascii c in
  if n <? 128 then 1 else if n <? 224 then 2 else if n <? 240 then 3 else 4.

(** [v[0]] *)
Definition py_getitem0 (v : pyval) : result pyval :=
  match v with
  | PList (x :: _) => Ok x
  | PList [] => Raise IndexError
  | PStr (String c _ as s) => Ok (PStr (String.substring 0 (utf8_width c) s))
  | PStr EmptyString => Raise IndexError
  | PDict _ => Raise (KeyError (PInt 0))
  | _ => Raise TypeError
  end.

(** The fixed sentence returned when no attempt is a mistake. *)
Definition no_mistakes : string :=
  "No mistakes found in the provided attempts. All questions were answered correctly!".

(** The system prompt of [generate_report], line by line. *)
Definition system_prompt : string :=
  String.concat nl [
    EmptyString;
    "You are an experienced mathematics tutor. Your role is to help students learn from their mistakes by analyzing their incorrect responses and providing targeted feedback.";
    "Please have a maximum of 250 words";
    "## Your Task";
    EmptyString;
    "When you receive student mistake data, you will:";
    EmptyString;
    "1. **Analyze the mistake patterns** across different topics and question types";
    "2. **Summarize key learning areas** that need attention";
    "3. **Create targeted bullet points** for each mistake to help students remember and avoid repeating errors";
    "4. **Provide constructive feedback**";
    EmptyString;
    "## Data Format You'll Receive";
    EmptyString;
    "The student mistake data will be formatted as:";
    "- **Question ID** - [number]";
    "- **Topic** - [Australian curriculum topic area]";
    "- **Mistake Type** - [silly mistake/concept error/etc.]";
    "- **Explanation** - [student's explanation of what went wrong]";
    EmptyString;
    "## Your Response Structure";
    EmptyString;
    "### 1. Overall Summary";
    "Provide a brief overview of the student's performance patterns, highlighting:";
    "- Main topic areas with difficulties";
    "- Types of mistakes (silly errors vs content gaps)";
    "- Overall learning priorities";
    EmptyString;
    "### 2. Topic-by-Topic Breakdown";
    "For each mathematical topic, create:";
    EmptyString;
    "**[Topic Name]:**";
    "- **Mistake Pattern**: [Brief description of what went wrong]";
    "- **Remember**: [Key point to prevent this mistake]";
    "- **Next Steps**: [Specific practice recommendation]";
    EmptyString;
    "### 3. Key Reminders";
    "Create memorable bullet points using:";
    "- **Silly Mistakes**: Focus on checking procedures and common traps";
    "- **Concept Errors**: Address fundamental concept gaps";
    EmptyString;
    "## Tone and Approach";
    EmptyString;
    "- **Encouraging**: Frame mistakes as learning opportunities";
    "- **Specific**: Give concrete, actionable advice";
    "- **Practical**: Provide strategies students can immediately apply";
    "- **Australian context**: Use familiar terminology and examples";
    EmptyString;
    "## Example Response Format";
    EmptyString;
    "**Overall Summary:**";
    "Based on your recent practice sessions, you're showing strong mathematical reasoning but need to focus on accuracy in algebraic manipulation and careful attention to detail.";
    EmptyString;
    "**Algebra:**";
    "- **Mistake Pattern**: Sign errors when rearranging equations";
    "- **Remember**: " +:+ dq +:+ "When moving terms across the equals sign, flip the sign - positive becomes negative, negative becomes positive" +:+ dq;
    "- **Next Steps**: Practice 10 simple rearrangement problems daily, checking each step";
    EmptyString;
    "**Key Reminders:**";
    "• Always double-check sign changes when rearranging equations";
    "• Show all working steps to catch errors early";
    "• Take time to verify final answers by substitution";
    EmptyString;
    "**Strengths to Build On:**";
    "• Strong understanding of mathematical concepts";
    "• Good problem-solving approach";
    EmptyString;
    "Remember: Every mistake is a step toward mastery. Focus on understanding why each error occurred rather than just getting the right answer.";
    EmptyString
  ].

(** ** The request and response models of [/generate-report] *)

Record ReportRequest : Type := { attempts : list attempt }.
Record ReportResponse : Type := { report : string }.

(** Field validation of [ReportResponse(report=v)]: the field is declared
    [str] and only a [str] passes. *)
Definition make_ReportResponse (v : pyval) : result ReportResponse :=
  match v with
  | PStr s => Ok {| report := s |}
  | _ => Raise ValidationError
  end.

(** ** The Bedrock client and its calls *)

(** A [bedrock-runtime] client: what [converse] answers to a model id and a
    message list, either a decoded response or an exception. *)
Record client : Type := { converse : string → pyval → result pyval }.

(** One outbound request to the service. *)
Record service_call : Type := { call_modelId : string; call_messages : pyval }.

(** Computations that may call the service: the requests sent, in order,
    and the outcome.  The diagnostic line the clients print when a call
    fails goes to standard output and is not part of the model. *)
Definition io (A : Type) : Type := (list service_call * result A)%type.

#[global] Instance io_ret : MRet io := λ A a, ([], Ok a).
#[global] Instance io_bind : MBind io := λ A B f m,
  match m with
  | (tr, Ok a) => let '(tr', r) := f a in (tr ++ tr', r)
  | (tr, Raise e) => (tr, Raise e)
  end.

Definition lift {A : Type} (r : result A) : io A := ([], r).

Definition sent {A : Type} (m : io A) : list service_call := m.1.
Definition outcome {A : Type} (m : io A) : result A := m.2.

(** [try: body except Exception as e: handler e] *)
Definition try_except {A : Type} (body : io A) (handler : exn → io A) : io A :=
  match body with
  | (tr, Ok a) => (tr, Ok a)
  | (tr, Raise e) => let '(tr', r) := handler e in (tr ++ tr', r)
  end.

(** [bedrock.converse(modelId=model_id, messages=messages)] *)
Definition call_converse (bedrock : client) (model_id : string) (messages : pyval)
    : io pyval :=
  ([{| call_modelId := model_id; call_messages := messages |}],
   converse bedrock model_id messages).

(** The default of the [model_id] argument. *)
Definition default_model_id : string := "amazon.nova-pro-v1:0".

(** The [messages] list both clients build from the two prompts. *)
Definition messages (system_prompt user_message : string) : pyval :=
  PList [
    PDict (<["role" := PStr "user"]> (
           <["content" :=
               PList [PDict {[ "text" :=
                 PStr (system_prompt +:+ nl +:+ nl +:+ "User: " +:+ user_message) ]}]]>
           ∅))
  ].

(** [response['output']['message']['content'][0]['text']] *)
Definition response_text (response : pyval) : result pyval :=
  output ← py_getitem response "output";
  message ← py_getitem output "message";
  content ← py_getitem message "content";
  first ← py_getitem0 content;
  py_getitem first "text".

(** ** backend.py *)
Module Backend.
Section WithRepr.

(** [repr] of floats and containers is Python's own; the pipeline only
    interpolates it. *)
Variable py_repr : pyval → string.

(** [str(v)], as an f-string field renders it.  Integers are unbounded and
    print in decimal; the interpreter's cap on the number of digits of such
    a conversion is left out. *)
Definition py_str (v : pyval) : string :=
  match v with
  | PNone => "None"
  | PBool true => "True"
  | PBool false => "False"
  | PInt z => pretty z
  | PStr s => s
  | PFloat _ | PList _ | PDict _ => py_repr v
  end.

(** *** [generate_ai_response]

    [bedrock] is the module-level handle: [None] unless both credentials
    are set in the environment. *)
Definition generate_ai_response (bedrock : option client)
    (system_prompt user_message : string) (model_id : string) : io pyval :=
  match bedrock with
  | None => mret PNone
  | Some handle =>
      try_except
        (response ← call_converse handle model_id (messages system_prompt user_message);
         response_text ← lift (response_text response);
         mret response_text)
        (λ e, mret PNone)
  end.

(** *** [format_attempts_for_ai] *)

(** The guard of the loop body:
    [attempt.get('error_type') and attempt['error_type'] != 'none']. *)
Definition is_mistake (attempt : attempt) : result bool :=
  got ← py_get (PDict attempt) "error_type" PNone;
  if py_truthy got then
    error_type ← py_getitem (PDict attempt) "error_type";
    mret (py_ne_str error_type "none")
  else mret false.

(** The f-string appended for one mistake. *)
Definition mistake_block (topic error_type explanation question_id : pyval) : string :=
  nl +:+ "Topic - " +:+ py_str topic +:+ nl +:+
  "Mistake Type - " +:+ py_str error_type +:+ nl +:+
  "Explanation - " +:+ py_str explanation +:+ nl +:+
  "Question ID - " +:+ py_str question_id +:+ nl.

(** The [for] loop, with the list it appends to. *)
Fixpoint format_loop (attempts : list attempt) (formatted_attempts : list string)
    : result (list string) :=
  match attempts with
  | [] => mret formatted_attempts
  | attempt :: rest =>
      included ← is_mistake attempt;
      if included : bool then
        question ← py_get (PDict attempt) "question" (PDict ∅);
        topic ← py_get question "topic" (PStr "Unknown");
        error_type ← py_get (PDict attempt) "error_type" (PStr "Unknown");
        explanation ←
          py_get (PDict attempt) "explanation" (PStr "No explanation provided");
        question_id ← py_get (PDict attempt) "question_id" (PStr "Unknown");
        format_loop rest
          (formatted_attempts ++
             [mistake_block topic error_type explanation question_id])
      else format_loop rest formatted_attempts
  end.

Definition format_attempts_for_ai (attempts : list attempt) : result string :=
  formatted_attempts ← format_loop attempts [];
  match formatted_attempts with
  | [] => mret no_mistakes
  | _ => mret (String.concat nl formatted_attempts)
  end.

(** *** [generate_report] *)

(** [sum(1 for attempt in attempts if attempt.get('error_type') == kind)] *)
Definition count_error_type (kind : string) (attempts : list attempt) : Z :=
  foldr Z.add 0%Z
    (map (λ _, 1%Z)
       (List.filter
          (λ attempt, py_eq_str (default PNone (attempt !! "error_type")) kind)
          attempts)).

(** The f-string of the fallback branch, with its three fields. *)
Definition fallback_template (total silly concept : string) : string :=
  String.concat nl [
    "**Overall Summary:**";
    "Based on your recent practice sessions, you completed " +:+ total +:+ " questions. You made " +:+ silly +:+ " silly mistakes and " +:+ concept +:+ " concept errors.";
    EmptyString;
    "**Key Areas for Improvement:**";
    "- Focus on double-checking your work to avoid silly mistakes";
    "- Review fundamental concepts where you had difficulties";
    "- Practice more problems in topics where you made errors";
    EmptyString;
    "**General Advice:**";
    "• Take your time when working through problems";
    "• Show all working steps to catch errors early";
    "• Review your mistakes to understand what went wrong";
    "• Practice regularly to build confidence";
    EmptyString;
    "Remember: Every mistake is a learning opportunity. Keep practicing and you'll continue to improve!";
    EmptyString;
    "*Note: This is a basic report. For detailed AI analysis, please check your AWS Bedrock configuration.*"
  ].

(** The body of [if not ai_response:]. *)
Definition fallback_report (attempts : list attempt) : string :=
  let silly_mistakes := count_error_type "silly" attempts in
  let concept_errors := count_error_type "concept" attempts in
  fallback_template
    (py_str (PInt (Z.of_nat (length attempts))))
    (py_str (PInt silly_mistakes))
    (py_str (PInt concept_errors)).

Definition generate_report (bedrock : option client) (request : ReportRequest)
    : io ReportResponse :=
  formatted_attempts ← lift (format_attempts_for_ai (attempts request));
  ai_response ←
    match bedrock with
    | Some _ =>
        generate_ai_response bedrock system_prompt formatted_attempts default_model_id
    | None => mret PNone
    end;
  let ai_response :=
    if negb (py_truthy ai_response) then PStr (fallback_report (attempts request))
    else ai_response in
  lift (make_ReportResponse ai_response).

End WithRepr.
End Backend.

(** ** ai_handler/experiment.py

    Its module-level handle is always built, and the function has no guard
    on it. *)
Module Experiment.

Definition generate_ai_response (bedrock : client)
    (system_prompt user_message : string) (model_id : string) : io pyval :=
  try_except
    (response ← call_converse bedrock model_id (messages system_prompt user_message);
     response_text ← lift (response_text response);
     mret response_text)
    (λ e, mret PNone).

End Experiment.

(** ** Vocabulary of the specification *)

(** The value under [error_type], [None] when the key is absent. *)
Definition error_type_of (a : attempt) : pyval := default PNone (a !! "error_type").

(** A mistake: the error type is truthy and is not ["none"]. *)
Definition included (a : attempt) : bool :=
  py_truthy (error_type_of a) && py_ne_str (error_type_of a) "none".

(** The error type is absent, null or ["none"]. *)
Definition no_error (a : attempt) : Prop :=
  a !! "error_type" = None ∨ a !! "error_type" = Some PNone
  ∨ a !! "error_type" = Some (PStr "none").

(** The error type is there, is not null and is not ["none"]. *)
Definition present_not_none (a : attempt) : bool :=
  match a !! "error_type" with
  | None | Some PNone => false
  | Some v => py_ne_str v "none"
  end.

#[global] Instance error_type_eq_dec (a : attempt) (kind : string) :
  Decision (a !! "error_type" = Some (PStr kind)).
Proof.
  destruct (a !! "error_type") as [v|]; [|right; congruence].
  destruct v as [| | | |s| |]; try (right; congruence).
  destruct (decide (s = kind)) as [->|Hne]; [left; reflexivity|right; congruence].
Defined.

(** The number of attempts whose error type is the string [kind]. *)
Definition count_kind (kind : string) (l : list attempt) : nat :=
  length (filter (λ a : attempt, a !! "error_type" = Some (PStr kind)) l).

(** The four labelled lines of a block. *)
Definition four_lines (topic error_type explanation question_id : string) : string :=
  String.concat nl [
    "Topic - " +:+ topic;
    "Mistake Type - " +:+ error_type;
    "Explanation - " +:+ explanation;
    "Question ID - " +:+ question_id
  ].

Module Spec.
Section WithRepr.

Variable py_repr : pyval → string.

(** The text of a field: its value rendered, or the default when the key
    is absent. *)
Definition field_text (o : option pyval) (dflt : string) : string :=
  match o with
  | Some v => Backend.py_str py_repr v
  | None => dflt
  end.

(** The topic text of an attempt whose [question] is absent or a dict. *)
Definition topic_text (a : attempt) : option string :=
  match a !! "question" with
  | None => Some "Unknown"
  | Some (PDict q) => Some (field_text (q !! "topic") "Unknown")
  | Some _ => None
  end.

(** The block of an attempt, when its topic can be read. *)
Definition block_of (a : attempt) : option string :=
  topic ← topic_text a;
  Some (nl +:+
        four_lines topic
          (field_text (a !! "error_type") "Unknown")
          (field_text (a !! "explanation") "No explanation provided")
          (field_text (a !! "question_id") "Unknown") +:+
        nl).

End WithRepr.
End Spec.

(** A stand-in for [repr] and two sample records, for concrete runs. *)
Definition sample_repr : pyval → string := λ _, "<object>".

Definition null_question : attempt :=
  {[ "error_type" := PStr "silly"; "question" := PNone ]}.

Definition sign_error : attempt :=
  {[ "question_id" := PInt 15; "error_type" := PStr "silly";
     "explanation" := PStr "sign error";
     "question" := PDict {[ "topic" := PStr "Algebra" ]} ]}.

Definition null_explanation : attempt :=
  {[ "question_id" := PInt 7; "error_type" := PStr "concept";
     "explanation" := PNone;
     "question" := PDict {[ "topic" := PStr "Algebra" ]} ]}.

Definition empty_error_type : attempt := {[ "error_type" := PStr EmptyString ]}.

(** A client whose reply carries the text [X], one that cannot reach the
    service, and one whose response has no [output]. *)
Definition replies_X : client :=
  {| converse := λ _ _,
       Ok (PDict {[ "output" :=
             PDict {[ "message" :=
               PDict {[ "role" := PStr "assistant";
                        "content" := PList [PDict {[ "text" := PStr "X" ]}] ]} ]} ]}) |}.

Definition unreachable : client :=
  {| converse := λ _ _, Raise (ClientError "EndpointConnectionError") |}.

Definition malformed : client :=
  {| converse := λ _ _, Ok (PDict {[ "stopReason" := PStr "end_turn" ]}) |}.

(** ** backend.py and experiment.py: the module-level client handles *)
Module Config.
Section WithBoto.

(** [boto3.client(service_name=.., region_name=.., aws_access_key_id=..,
    aws_secret_access_key=..)]: the binding either builds a handle or
    raises (no region, malformed region name). *)
Variable boto3_client :
  string → string → option string → option string → result client.

(** [os.getenv(key)] and [os.getenv(key, dflt)] on the process environment
    (after [load_dotenv()]). *)
Definition getenv (environ : gmap string string) (key : string) : option string :=
  environ !! key.

Definition getenv_default (environ : gmap string string) (key dflt : string) : string :=
  default dflt (environ !! key).

(** An [Optional[str]] as a Python value. *)
Definition optional_str (o : option string) : pyval := from_option PStr PNone o.

(** backend.py: [bedrock] stays [None] unless both credentials are set. *)
Definition backend_bedrock (environ : gmap string string) : result (option client) :=
  let AWS_ACCESS_KEY_ID := getenv environ "AWS_ACCESS_KEY_ID" in
  let AWS_SECRET_ACCESS_KEY := getenv environ "AWS_SECRET_ACCESS_KEY" in
  let AWS_REGION := getenv_default environ "AWS_REGION" "us-east-1" in
  if py_truthy (optional_str AWS_ACCESS_KEY_ID)
     && py_truthy (optional_str AWS_SECRET_ACCESS_KEY)
  then
    handle ← boto3_client "bedrock-runtime" AWS_REGION
                AWS_ACCESS_KEY_ID AWS_SECRET_ACCESS_KEY;
    mret (Some handle)
  else mret None.

(** experiment.py: the handle is built whatever the environment holds. *)
Definition experiment_bedrock (environ : gmap string string) : result client :=
  let AWS_ACCESS_KEY_ID := getenv environ "AWS_ACCESS_KEY_ID" in
  let AWS_SECRET_ACCESS_KEY := getenv environ "AWS_SECRET_ACCESS_KEY" in
  let AWS_REGION := getenv_default environ "AWS_REGION" "us-east-1" in
  boto3_client "bedrock-runtime" AWS_REGION AWS_ACCESS_KEY_ID AWS_SECRET_ACCESS_KEY.

End WithBoto.
End Config.

(** ** backend.py: the database models and the handlers over them

    The two tables are kept as the lists of their rows, in storage order;
    a query without [ORDER BY] is read in that order. *)
Module Store.

Inductive ErrorType : Type := silly | concept | none.

(** [member.value] *)
Definition value (e : ErrorType) : string :=
  match e with
  | silly => "silly"
  | concept => "concept"
  | none => "none"
  end.

(** [ErrorType(s)], the lookup of a member by value; [None] stands for the
    [ValueError] of a value no member has. *)
Definition ErrorType_call (s : string) : option ErrorType :=
  if String.eqb s "silly" then Some silly
  else if String.eqb s "concept" then Some concept
  else if String.eqb s "none" then Some none
  else None.

(** A naive [datetime]. *)
Record datetime : Type := {
  year : Z; month : Z; day : Z;
  hour : Z; minute : Z; second : Z; microsecond : Z
}.

Module Question.
Record t : Type := {
  question_id : Z;
  topic : string;
  question_img : string;
  answer_img : string
}.
End Question.

Module Attempt.
Record t : Type := {
  id : Z;
  question_id : option Z;
  error_type : option ErrorType;
  explanation : option string;
  timestamp : option datetime
}.
End Attempt.

Record database : Type := {
  questions : list Question.t;
  attempts : list Attempt.t
}.

(** What a handler hands to the framework: a value, or the
    [HTTPException] it raised. *)
Inductive response (A : Type) : Type :=
  | Returns (a : A)
  | HTTPException (status_code : Z) (detail : string).
Arguments Returns {A} a.
Arguments HTTPException {A} status_code detail.

(** The sample rows of the initialisation block: topic, question image,
    answer image. *)
Definition sample_questions : list (string * string * string) :=
  [ ("Trigonometry", "sample_trig_question.png", "sample_trig_answer.png");
    ("Algebra", "sample_algebra_question.png", "sample_algebra_answer.png");
    ("Geometry", "sample_geometry_question.png", "sample_geometry_answer.png");
    ("Linear graphs", "sample_linear_question.png", "sample_linear_answer.png");
    ("Fractions", "sample_fractions_question.png", "sample_fractions_answer.png") ].

Section Handlers.

(** [datetime.isoformat()] *)
Variable isoformat : datetime → string.

(** The primary keys the database gives to a new row of each table. *)
Variable attempt_pk : list Attempt.t → Z.
Variable question_pk : list Question.t → Z.

(** [session.query(Question).filter(Question.question_id == k).first()] *)
Definition question_by_id (k : Z) (db : database) : option Question.t :=
  List.find (λ q, (Question.question_id q =? k)%Z) (questions db).

Definition get_questions_by_topic (topic : string) (db : database)
    : response (list (gmap string pyval)) :=
  let questions :=
    List.filter (λ q, String.eqb (Question.topic q) topic) (questions db) in
  match questions with
  | [] => HTTPException 404 "No questions found for this topic"
  | _ =>
      Returns
        (map (λ q, {[ "question_id" := PInt (Question.question_id q);
                      "topic" := PStr (Question.topic q);
                      "question_img" := PStr (Question.question_img q);
                      "answer_img" := PStr (Question.answer_img q) ]})
           questions)
  end.

(** [utcnow] is the clock reading the column default takes at the insert.
    Ids are compared as integers; one outside the signed 64-bit range,
    which the database driver refuses to bind, is outside this model. *)
Definition create_attempt (utcnow : datetime)
    (question_id : Z) (error_type explanation : option string) (db : database)
    : response (gmap string pyval) * database :=
  match question_by_id question_id db with
  | None => (HTTPException 404 "Question not found", db)
  | Some question =>
      let error_enum : response (option ErrorType) :=
        if py_truthy (Config.optional_str error_type) then
          match error_type ≫= ErrorType_call with
          | Some member => Returns (Some member)
          | None => HTTPException 400 "Invalid error_type"
          end
        else Returns None in
      match error_enum with
      | HTTPException status_code detail => (HTTPException status_code detail, db)
      | Returns error_enum =>
          let attempt :=
            {| Attempt.id := attempt_pk (attempts db);
               Attempt.question_id := Some question_id;
               Attempt.error_type := error_enum;
               Attempt.explanation := explanation;
               Attempt.timestamp := Some utcnow |} in
          (Returns {[ "message" := PStr "Attempt created successfully";
                      "id" := PInt (Attempt.id attempt) ]},
           {| questions := questions db; attempts := attempts db ++ [attempt] |})
      end
  end.

(** [session.query(Question.topic).distinct().all()]: each topic once, at
    the place of its first row. *)
Definition get_topics (db : database) : list string :=
  reverse (remove_dups (reverse (map Question.topic (questions db)))).

(** The rows of [query(Attempt).join(Question)] with the question each one
    refers to; [utcnow] is the clock reading taken for a row without a
    timestamp. *)
Definition get_all_attempts (utcnow : Attempt.t → datetime) (db : database)
    : list (gmap string pyval) :=
  omap
    (λ attempt,
       question ← Attempt.question_id attempt ≫= λ k, question_by_id k db;
       Some {[ "id" := PInt (Attempt.id attempt);
               "question_id" := from_option PInt PNone (Attempt.question_id attempt);
               "error_type" :=
                 match Attempt.error_type attempt with
                 | Some member => PStr (value member)
                 | None => PNone
                 end;
               "explanation" := Config.optional_str (Attempt.explanation attempt);
               "timestamp" :=
                 PStr (match Attempt.timestamp attempt with
                       | Some ts => isoformat ts +:+ "Z"
                       | None => isoformat (utcnow attempt) +:+ "Z"
                       end);
               "question" :=
                 PDict {[ "topic" := PStr (Question.topic question);
                          "question_id" := PInt (Question.question_id question) ]} ]})
    (attempts db).

(** The initialisation block: the sample questions are added only to an
    empty table. *)
Definition main (db : database) : database :=
  let existing_questions := length (questions db) in
  if (existing_questions =? 0)%nat then
    {| questions :=
         foldl
           (λ rows '(topic, question_img, answer_img),
              rows ++ [ {| Question.question_id := question_pk rows;
                           Question.topic := topic;
                           Question.question_img := question_img;
                           Question.answer_img := answer_img |} ])
           (questions db) sample_questions;
       attempts := attempts db |}
  else db.

End Handlers.
End Store.

(** The keys the pipeline reads from an attempt. *)
Definition read_keys : list string :=
  ["error_type"; "question"; "explanation"; "question_id"].

(** Every attempt row refers to a question that is in the table. *)
Definition linked (db : Store.database) : Prop :=
  ∀ a : Store.Attempt.t,
    a ∈ Store.attempts db →
    ∃ k : Z, Store.Attempt.question_id a = Some k
             ∧ is_Some (Store.question_by_id k db).

(** A clock reading, a rendering of it and a small database, for concrete
    runs. *)
Definition noon : Store.datetime :=
  {| Store.year := 2025; Store.month := 3; Store.day := 14;
     Store.hour := 12; Store.minute := 0; Store.second := 0;
     Store.microsecond := 0 |}.

Definition sample_isoformat : Store.datetime → string := λ _, "2025-03-14T12:00:00".

Definition sample_pk {A : Type} (rows : list A) : Z := Z.of_nat (S (length rows)).

Definition algebra_db : Store.database :=
  {| Store.questions :=
       [ {| Store.Question.question_id := 1; Store.Question.topic := "Algebra";
            Store.Question.question_img := "q1.png";
            Store.Question.answer_img := "a1.png" |};
         {| Store.Question.question_id := 2; Store.Question.topic := "Geometry";
            Store.Question.question_img := "q2.png";
            Store.Question.answer_img := "a2.png" |} ];
     Store.attempts :=
       [ {| Store.Attempt.id := 1; Store.Attempt.question_id := Some 1%Z;
            Store.Attempt.error_type := Some Store.silly;
            Store.Attempt.explanation := Some "sign error";
            Store.Attempt.timestamp := None |} ] |}.

(** A field value that the f-string renders without more ado: no list or
    dict, and an integer of at most 4300 decimal digits (the interpreter
    refuses to convert a longer one). *)
Definition plain_value (v : pyval) : bool :=
  match v with
  | PInt z => (Z.abs z <? 10 ^ 4300)%Z
  | PList _ | PDict _ => false
  | _ => true
  end.

Definition plain_field (o : option pyval) : bool :=
  match o with
  | Some v => plain_value v
  | None => true
  end.

(** The four fields the formatter renders are plain where they are there. *)
Definition plain_attempt (a : attempt) : bool :=
  plain_field (a !! "error_type")
  && plain_field (a !! "explanation")
  && plain_field (a !! "question_id")
  && match a !! "question" with
     | Some (PDict q) => plain_field (q !! "topic")
     | _ => true
     end.

(** A client whose response is well formed up to the text, which is the
    number 5. *)
Definition replies_number : client :=
  {| converse := λ _ _,
       Ok (PDict {[ "output" :=
             PDict {[ "message" :=
               PDict {[ "role" := PStr "assistant";
                        "content" := PList [PDict {[ "text" := PInt 5 ]}] ]} ]} ]}) |}.

(** ** Properties of the formatter *)

Lemma append_assoc (s1 s2 s3 : string) : (s1 +:+ s2) +:+ s3 = s1 +:+ s2 +:+ s3.
Proof.
  induction s1 as [|c s1 IH]; [reflexivity|].
  change (String c ((s1 +:+ s2) +:+ s3) = String c (s1 +:+ s2 +:+ s3)).
  by rewrite IH.
Qed.

Section Formatter.

Variable py_repr : pyval → string.

#[local] Abbreviation py_str := (Backend.py_str py_repr).
#[local] Abbreviation is_mistake := Backend.is_mistake.
#[local] Abbreviation mistake_block := (Backend.mistake_block py_repr).
#[local] Abbreviation format_loop := (Backend.format_loop py_repr).
#[local] Abbreviation format_attempts_for_ai := (Backend.format_attempts_for_ai py_repr).
#[local] Abbreviation field_text := (Spec.field_text py_repr).
#[local] Abbreviation topic_text := (Spec.topic_text py_repr).
#[local] Abbreviation block_of := (Spec.block_of py_repr).

(** The guard never raises: the subscript is only reached when the key
    is there. *)
Lemma is_mistake_included (a : attempt) : is_mistake a = Ok (included a).
Proof.
  unfold Backend.is_mistake, included, error_type_of, py_get, py_getitem.
  destruct (a !! "error_type") as [v|]; simpl; [|reflexivity].
  destruct (py_truthy v); reflexivity.
Qed.

Lemma mistake_block_four_lines (t e x q : pyval) :
  mistake_block t e x q
  = nl +:+ four_lines (py_str t) (py_str e) (py_str x) (py_str q) +:+ nl.
Proof.
  unfold Backend.mistake_block, four_lines. simpl.
  by rewrite !append_assoc.
Qed.

(** Two consecutive blocks in the output: the closing newline of the first,
    the joining newline and the opening newline of the second leave two
    blank lines between them. *)
Lemma blocks_blank_line_separated (x y : string) :
  String.concat nl [nl +:+ x +:+ nl; nl +:+ y +:+ nl]
  = nl +:+ x +:+ nl +:+ nl +:+ nl +:+ y +:+ nl.
Proof. cbn [String.concat]. by rewrite !append_assoc. Qed.

(** One turn of the loop on a mistake. *)
Lemma format_loop_included (a : attempt) (rest : list attempt) (acc : list string) :
  included a = true →
  format_loop (a :: rest) acc
  = match block_of a with
    | Some b => format_loop rest (acc ++ [b])
    | None => Raise AttributeError
    end.
Proof.
  intros Hin. simpl. rewrite is_mistake_included, Hin. simpl.
  unfold Spec.block_of, Spec.topic_text.
  destruct (a !! "question") as [v|] eqn:Eq; simpl.
  - destruct v; simpl; try reflexivity.
    rewrite mistake_block_four_lines. unfold Spec.field_text.
    destruct (d !! "topic"), (a !! "error_type"), (a !! "explanation"),
      (a !! "question_id"); reflexivity.
  - rewrite lookup_empty. simpl.
    rewrite mistake_block_four_lines. unfold Spec.field_text.
    destruct (a !! "error_type"), (a !! "explanation"),
      (a !! "question_id"); reflexivity.
Qed.

Lemma format_loop_excluded (a : attempt) (rest : list attempt) (acc : list string) :
  included a = false → format_loop (a :: rest) acc = format_loop rest acc.
Proof. intros Hex. simpl. by rewrite is_mistake_included, Hex. Qed.

(** The loop as a whole: the blocks of the mistakes, in input order,
    appended to the accumulator; it raises exactly when some mistake has
    a [question] that is not a dict. *)
Lemma format_loop_spec (l : list attempt) (acc : list string) :
  format_loop l acc
  = match mapM block_of (List.filter included l) with
    | Some bs => Ok (acc ++ bs)
    | None => Raise AttributeError
    end.
Proof.
  revert acc. induction l as [|a l IH]; intros acc.
  - simpl. by rewrite app_nil_r.
  - destruct (included a) eqn:Hin.
    + rewrite format_loop_included by done. simpl. rewrite Hin. simpl.
      destruct (block_of a) as [b|]; simpl; [|reflexivity].
      rewrite IH. destruct (mapM block_of (List.filter included l)); simpl;
        [|reflexivity].
      by rewrite <- app_assoc.
    + rewrite format_loop_excluded by done. simpl. rewrite Hin. apply IH.
Qed.

Lemma format_attempts_for_ai_spec (l : list attempt) :
  format_attempts_for_ai l
  = match mapM block_of (List.filter included l) with
    | Some [] => Ok no_mistakes
    | Some bs => Ok (String.concat nl bs)
    | None => Raise AttributeError
    end.
Proof.
  unfold Backend.format_attempts_for_ai. rewrite format_loop_spec.
  destruct (mapM block_of (List.filter included l)) as [[|b bs]|]; reflexivity.
Qed.

Lemma no_error_excluded (a : attempt) : no_error a → included a = false.
Proof.
  unfold no_error, included, error_type_of.
  intros [-> | [-> | ->]]; reflexivity.
Qed.

Lemma falsy_excluded (a : attempt) :
  py_truthy (error_type_of a) = false → included a = false.
Proof. unfold included. by intros ->. Qed.

Lemma filter_included_app_excluded (a : attempt) (l1 l2 : list attempt) :
  included a = false →
  List.filter included (l1 ++ a :: l2) = List.filter included (l1 ++ l2).
Proof. intros Hex. rewrite !List.filter_app. simpl. by rewrite Hex. Qed.

(** C4. When every attempt has its error type absent, null or equal to
    ["none"] (the empty list included), the formatter returns exactly the
    sentence "No mistakes found in the provided attempts. All questions
    were answered correctly!". *)
Theorem no_mistakes_sentinel (l : list attempt) :
  Forall no_error l →
  format_attempts_for_ai l
  = Ok "No mistakes found in the provided attempts. All questions were answered correctly!".
Proof.
  intros Hall. rewrite format_attempts_for_ai_spec.
  assert (List.filter included l = []) as ->; [|reflexivity].
  induction Hall as [|a l Ha _ IH]; [reflexivity|].
  simpl. by rewrite (no_error_excluded a Ha).
Qed.

(** C3, as amended.  Whenever the formatter returns, its output is made
    of the blocks the loop collected (joined by a newline, or the fixed
    sentence when there is none), and the number of blocks is the number
    of attempts whose error type is truthy and is not ["none"]. *)
Theorem block_count (l : list attempt) (out : string) :
  format_attempts_for_ai l = Ok out →
  ∃ blocks : list string,
    format_loop l [] = Ok blocks
    ∧ out = match blocks with
            | [] => no_mistakes
            | _ => String.concat nl blocks
            end
    ∧ length blocks = length (List.filter included l).
Proof.
  rewrite format_attempts_for_ai_spec, format_loop_spec.
  destruct (mapM block_of (List.filter included l)) as [bs|] eqn:E; [|done].
  intros Hout. exists bs. split; [reflexivity|]. split.
  - destruct bs; congruence.
  - apply mapM_Some, Forall2_length in E. done.
Qed.

(** C6. Whenever the formatter returns, its output is the blocks of the
    included attempts, one per attempt and in input order, joined by a
    newline; each block is an empty line, the four lines Topic, Mistake
    Type, Explanation and Question ID in that order, and a closing
    newline, so that consecutive blocks are separated by blank lines.
    A missing topic or error type reads "Unknown", a missing explanation
    "No explanation provided". *)
Theorem blocks_layout (l : list attempt) (out : string) :
  format_attempts_for_ai l = Ok out →
  ∃ blocks : list string,
    out = match blocks with
          | [] => no_mistakes
          | _ => String.concat nl blocks
          end
    ∧ Forall2
        (λ (a : attempt) (b : string),
           ∃ topic : string,
             b = nl +:+
                 four_lines topic
                   (field_text (a !! "error_type") "Unknown")
                   (field_text (a !! "explanation") "No explanation provided")
                   (field_text (a !! "question_id") "Unknown") +:+
                 nl
             ∧ (a !! "question" = None → topic = "Unknown")
             ∧ (∀ q : gmap string pyval, a !! "question" = Some (PDict q) →
                  topic = field_text (q !! "topic") "Unknown"))
        (List.filter included l) blocks.
Proof.
  rewrite format_attempts_for_ai_spec.
  destruct (mapM block_of (List.filter included l)) as [bs|] eqn:E; [|done].
  intros Hout. exists bs. split; [destruct bs; congruence|].
  apply mapM_Some in E. eapply Forall2_impl; [exact E|].
  intros a b. unfold Spec.block_of, Spec.topic_text.
  destruct (a !! "question") as [[| | | | | |q]|]; simpl; try done.
  - intros [= <-]. eexists. split; [reflexivity|]. split; [done|].
    by intros q' [= <-].
  - intros [= <-]. eexists. split; [reflexivity|]. split; [done|]. done.
Qed.

(** C9. When the formatter returns, the block of an included attempt
    whose [explanation] key holds null has the Explanation line
    "Explanation - None", which is not the default "No explanation
    provided"; the same holds of a null [question_id], while an absent
    key gets the default. *)
Theorem null_explanation_rendered
    (l : list attempt) (blocks : list string) (i : nat) (a : attempt) :
  format_loop l [] = Ok blocks →
  List.filter included l !! i = Some a →
  a !! "explanation" = Some PNone →
  ∃ topic error_type question_id : string,
    blocks !! i = Some (nl +:+ four_lines topic error_type "None" question_id +:+ nl)
    ∧ "None" ≠ "No explanation provided"
    ∧ (a !! "question_id" = Some PNone → question_id = "None")
    ∧ (a !! "question_id" = None → question_id = "Unknown").
Proof.
  rewrite format_loop_spec.
  destruct (mapM block_of (List.filter included l)) as [bs|] eqn:E; [|done].
  intros [= <-] Hi Hexp. apply mapM_Some in E.
  destruct (Forall2_lookup_l _ _ _ _ _ E Hi) as (b & Hb & Hblock).
  unfold Spec.block_of in Hblock.
  destruct (topic_text a) as [topic|]; [|done]. simpl in Hblock.
  injection Hblock as <-. rewrite Hexp in Hb. simpl in Hb.
  exists topic, (field_text (a !! "error_type") "Unknown"),
    (field_text (a !! "question_id") "Unknown").
  split; [exact Hb|]. split; [done|]. split; by intros ->.
Qed.

(** C10. An attempt whose [error_type] key holds a falsy value (the
    empty string, zero, [False], an empty list or dict; null as well) is
    not a mistake for the guard, and the formatter does with it what it
    does without it: it contributes no block. *)
Theorem falsy_error_type_excluded
    (a : attempt) (v : pyval) (l1 l2 : list attempt) :
  a !! "error_type" = Some v →
  py_truthy v = false →
  is_mistake a = Ok false
  ∧ format_loop (l1 ++ a :: l2) [] = format_loop (l1 ++ l2) []
  ∧ format_attempts_for_ai (l1 ++ a :: l2) = format_attempts_for_ai (l1 ++ l2).
Proof.
  intros Hv Hfalsy.
  assert (included a = false) as Hex.
  { apply falsy_excluded. unfold error_type_of. by rewrite Hv. }
  split; [by rewrite is_mistake_included, Hex|].
  rewrite !format_attempts_for_ai_spec, !format_loop_spec.
  by rewrite (filter_included_app_excluded a l1 l2 Hex).
Qed.

End Formatter.

(** ** Properties of the fallback report *)

Section Fallback.

Variable py_repr : pyval → string.

#[local] Abbreviation count_error_type := Backend.count_error_type.
#[local] Abbreviation fallback_template := Backend.fallback_template.
#[local] Abbreviation fallback_report := (Backend.fallback_report py_repr).

(** The sum of ones is the number of attempts of that kind. *)
Lemma count_error_type_count_kind (kind : string) (l : list attempt) :
  count_error_type kind l = Z.of_nat (count_kind kind l).
Proof.
  unfold Backend.count_error_type, count_kind.
  induction l as [|a l IH]; [reflexivity|].
  rewrite filter_cons. simpl.
  destruct (decide (a !! "error_type" = Some (PStr kind))) as [Hk|Hk].
  - rewrite Hk. simpl. rewrite String.eqb_refl. simpl.
    rewrite IH. lia.
  - assert (py_eq_str (default PNone (a !! "error_type")) kind = false) as ->; [|exact IH].
    destruct (a !! "error_type") as [[| | | |s| |]|]; simpl; try reflexivity.
    apply String.eqb_neq. congruence.
Qed.

Lemma count_kind_skip (kind : string) (a : attempt) (l : list attempt) :
  a !! "error_type" ≠ Some (PStr kind) →
  count_kind kind (a :: l) = count_kind kind l.
Proof. intros Hne. unfold count_kind. by rewrite filter_cons_False. Qed.

(** C5. The fallback report is the fixed text below with three integers
    written in it in decimal: after "you completed" the length of the
    attempt list, after "You made" the number of attempts whose error type
    is ["silly"], and after "silly mistakes and" the number whose error
    type is ["concept"].  An attempt whose error type is ["none"] or absent
    adds one to the total and nothing to either category. *)
Theorem fallback_counts (l : list attempt) :
  let text (total silly concept : Z) : string :=
    "**Overall Summary:**" +:+ nl +:+
    "Based on your recent practice sessions, you completed " +:+ pretty total +:+
    " questions. You made " +:+ pretty silly +:+
    " silly mistakes and " +:+ pretty concept +:+
    " concept errors." +:+ nl +:+
    nl +:+
    "**Key Areas for Improvement:**" +:+ nl +:+
    "- Focus on double-checking your work to avoid silly mistakes" +:+ nl +:+
    "- Review fundamental concepts where you had difficulties" +:+ nl +:+
    "- Practice more problems in topics where you made errors" +:+ nl +:+
    nl +:+
    "**General Advice:**" +:+ nl +:+
    "• Take your time when working through problems" +:+ nl +:+
    "• Show all working steps to catch errors early" +:+ nl +:+
    "• Review your mistakes to understand what went wrong" +:+ nl +:+
    "• Practice regularly to build confidence" +:+ nl +:+
    nl +:+
    "Remember: Every mistake is a learning opportunity. Keep practicing and you'll continue to improve!" +:+ nl +:+
    nl +:+
    "*Note: This is a basic report. For detailed AI analysis, please check your AWS Bedrock configuration.*" in
  fallback_report l
  = text (Z.of_nat (length l))
      (Z.of_nat (count_kind "silly" l))
      (Z.of_nat (count_kind "concept" l))
  ∧ ∀ a : attempt,
      a !! "error_type" = None ∨ a !! "error_type" = Some (PStr "none") →
      fallback_report (a :: l)
      = text (Z.of_nat (S (length l)))
          (Z.of_nat (count_kind "silly" l))
          (Z.of_nat (count_kind "concept" l)).
Proof.
  intros text.
  assert (∀ k : list attempt,
    fallback_report k
    = text (Z.of_nat (length k))
        (Z.of_nat (count_kind "silly" k))
        (Z.of_nat (count_kind "concept" k))) as Hreport.
  { intros k. unfold text, Backend.fallback_report, Backend.fallback_template,
      Backend.py_str.
    rewrite !count_error_type_count_kind. cbn [String.concat].
    rewrite !append_assoc. reflexivity. }
  split; [apply Hreport|].
  intros a Ha. rewrite Hreport.
  rewrite !count_kind_skip; [reflexivity| |]; destruct Ha as [-> | ->]; congruence.
Qed.

End Fallback.

(** ** Properties of the generation clients *)

(** When the subscript chain reaches a text: the response is a dict whose
    [output] is a dict whose [message] is a dict whose [content] is a list
    that starts with a dict holding [text]. *)
Lemma response_text_Ok (response v : pyval) :
  response_text response = Ok v
  ↔ ∃ (r o m seg : gmap string pyval) (rest : list pyval),
      response = PDict r
      ∧ r !! "output" = Some (PDict o)
      ∧ o !! "message" = Some (PDict m)
      ∧ m !! "content" = Some (PList (PDict seg :: rest))
      ∧ seg !! "text" = Some v.
Proof.
  unfold response_text. split.
  - destruct response as [| | | | | |r]; try done. simpl.
    destruct (r !! "output") as [out|] eqn:Hr; [|done]. simpl.
    destruct out as [| | | | | |o]; try done. simpl.
    destruct (o !! "message") as [msg|] eqn:Ho; [|done]. simpl.
    destruct msg as [| | | | | |m]; try done. simpl.
    destruct (m !! "content") as [content|] eqn:Hm; [|done]. simpl.
    destruct content as [| | | |s|items|d]; try done.
    + destruct s; done.
    + destruct items as [|first rest]; [done|]. simpl.
      destruct first as [| | | | | |seg]; try done. simpl.
      destruct (seg !! "text") as [t|] eqn:Hseg; [|done].
      intros [= <-]. by exists r, o, m, seg, rest.
  - intros (r & o & m & seg & rest & -> & Hr & Ho & Hm & Hseg).
    simpl. rewrite Hr. simpl. rewrite Ho. simpl. rewrite Hm. simpl.
    by rewrite Hseg.
Qed.

(** The body shared by both clients, run against a handle. *)
Lemma experiment_client_run (c : client) (S U model : string) :
  Experiment.generate_ai_response c S U model
  = ([{| call_modelId := model; call_messages := messages S U |}],
     match converse c model (messages S U) ≫= response_text with
     | Ok v => Ok v
     | Raise _ => Ok PNone
     end).
Proof.
  unfold Experiment.generate_ai_response, try_except, call_converse.
  simpl. destruct (converse c model (messages S U)) as [resp|e]; simpl; [|reflexivity].
  destruct (response_text resp); reflexivity.
Qed.

Lemma client_outcome (c : client) (S U model : string) :
  outcome (Experiment.generate_ai_response c S U model)
  = match converse c model (messages S U) ≫= response_text with
    | Ok v => Ok v
    | Raise _ => Ok PNone
    end.
Proof. by rewrite experiment_client_run. Qed.

Section Clients.

Variable py_repr : pyval → string.

#[local] Abbreviation generate_ai_response := Backend.generate_ai_response.
#[local] Abbreviation generate_report := (Backend.generate_report py_repr).
#[local] Abbreviation format_attempts_for_ai := (Backend.format_attempts_for_ai py_repr).
#[local] Abbreviation fallback_report := (Backend.fallback_report py_repr).

Lemma backend_client_run (c : client) (S U model : string) :
  generate_ai_response (Some c) S U model
  = Experiment.generate_ai_response c S U model.
Proof. reflexivity. Qed.

(** What the handler answers, from the formatter's result and the
    client's reply. *)
Lemma generate_report_outcome (bedrock : option client) (request : ReportRequest) :
  outcome (generate_report bedrock request)
  = (txt ← format_attempts_for_ai (attempts request);
     match
       match bedrock with
       | Some _ => outcome (generate_ai_response bedrock system_prompt txt default_model_id)
       | None => Ok PNone
       end
     with
     | Ok v =>
         if py_truthy v then make_ReportResponse v
         else Ok {| report := fallback_report (attempts request) |}
     | Raise e => Raise e
     end).
Proof.
  unfold Backend.generate_report, outcome, lift.
  destruct (format_attempts_for_ai (attempts request)) as [txt|e]; [|reflexivity].
  destruct bedrock as [c|]; [|reflexivity].
  cbn [mbind io_bind result_bind].
  rewrite backend_client_run, experiment_client_run. cbn [snd].
  destruct (converse c default_model_id (messages system_prompt txt) ≫= response_text)
    as [v|e]; simpl; [|reflexivity].
  destruct (py_truthy v); reflexivity.
Qed.

(** Generation precedence and fallback, for the attempt lists on which
    the formatter returns. *)
Lemma generate_report_precedence
    (c : client) (request : ReportRequest) (txt s : string) :
  format_attempts_for_ai (attempts request) = Ok txt →
  outcome (generate_ai_response (Some c) system_prompt txt default_model_id)
  = Ok (PStr s) →
  s ≠ EmptyString →
  outcome (generate_report (Some c) request) = Ok {| report := s |}.
Proof.
  intros Hfmt Hreply Hs. rewrite generate_report_outcome, Hfmt. cbn [mbind result_bind].
  rewrite Hreply. cbn [py_truthy make_ReportResponse].
  destruct (String.eqb_spec s EmptyString) as [->|_]; [done|reflexivity].
Qed.

Lemma generate_report_fallback
    (bedrock : option client) (request : ReportRequest) (txt : string) :
  format_attempts_for_ai (attempts request) = Ok txt →
  bedrock = None
  ∨ outcome (generate_ai_response bedrock system_prompt txt default_model_id)
    = Ok PNone
  ∨ outcome (generate_ai_response bedrock system_prompt txt default_model_id)
    = Ok (PStr EmptyString) →
  outcome (generate_report bedrock request)
  = Ok {| report := fallback_report (attempts request) |}.
Proof.
  intros Hfmt Hcase. rewrite generate_report_outcome, Hfmt. cbn [mbind result_bind].
  destruct bedrock as [c|]; [|reflexivity].
  destruct Hcase as [?|[-> | ->]]; done.
Qed.

(** The formatter raises exactly on the lists that hold a mistake whose
    [question] is there and is not a dict. *)
Lemma format_attempts_for_ai_raises (l : list attempt) (e : exn) :
  format_attempts_for_ai l = Raise e
  ↔ e = AttributeError
    ∧ Exists (λ a : attempt, Spec.topic_text py_repr a = None)
        (List.filter included l).
Proof.
  rewrite format_attempts_for_ai_spec.
  destruct (mapM (Spec.block_of py_repr) (List.filter included l))
    as [bs|] eqn:E.
  - split; [destruct bs; done|]. intros [_ Hex].
    apply mapM_Some in E. exfalso. revert Hex.
    induction E as [|a b k bs Hab _ IH]; intros Hex; inversion Hex; subst; [|by auto].
    unfold Spec.block_of in Hab. by destruct (Spec.topic_text py_repr a).
  - apply mapM_None in E. split.
    + intros [= <-]. split; [done|]. eapply Exists_impl; [exact E|].
      intros a. unfold Spec.block_of. by destruct (Spec.topic_text py_repr a).
    + by intros [-> _].
Qed.

(** X21. Neither client ever raises.  The client answers [None] when no
    client is configured, when the service binding raises, and when the
    subscript chain to the text raises (a missing key, an empty content
    list, a value of the wrong kind on the way).  Whenever the client
    answers [None] for the formatted text, the handler answers as it does
    with no client configured. *)
Theorem client_fails_softly (S U model : string) :
  generate_ai_response None S U model = ([], Ok PNone)
  ∧ ∀ c : client,
      ((∃ v : pyval, outcome (generate_ai_response (Some c) S U model) = Ok v)
       ∧ ∃ v : pyval, outcome (Experiment.generate_ai_response c S U model) = Ok v)
      ∧ (∀ e : exn,
           converse c model (messages S U) = Raise e →
           outcome (generate_ai_response (Some c) S U model) = Ok PNone
           ∧ outcome (Experiment.generate_ai_response c S U model) = Ok PNone)
      ∧ (∀ (response : pyval) (e : exn),
           converse c model (messages S U) = Ok response →
           response_text response = Raise e →
           outcome (generate_ai_response (Some c) S U model) = Ok PNone
           ∧ outcome (Experiment.generate_ai_response c S U model) = Ok PNone)
      ∧ ∀ request : ReportRequest,
          (∀ txt : string,
             format_attempts_for_ai (attempts request) = Ok txt →
             outcome (generate_ai_response (Some c) system_prompt txt default_model_id)
             = Ok PNone) →
          outcome (generate_report (Some c) request)
          = outcome (generate_report None request).
Proof.
  split; [reflexivity|]. intros c. split; [|split; [|split]].
  - rewrite backend_client_run, client_outcome.
    destruct (converse c model (messages S U) ≫= response_text); eauto.
  - intros e He. rewrite backend_client_run, client_outcome, He. done.
  - intros response e Hresp He.
    rewrite backend_client_run, client_outcome, Hresp.
    cbn [mbind result_bind]. by rewrite He.
  - intros request Hnone. rewrite !generate_report_outcome.
    destruct (format_attempts_for_ai (attempts request)) as [txt|e] eqn:Hfmt;
      [|reflexivity].
    cbn [mbind result_bind]. by rewrite (Hnone txt eq_refl).
Qed.

(** C8. With a client configured, exactly one request is sent; its
    message list holds one user message whose only content item is the
    text made of the system prompt, two newlines, "User: " and the user
    message.  When the response holds a text in the first item of the
    content of its output message, the client returns that text. *)
Theorem client_request_and_reply (c : client) (S U model : string) :
  let request :=
    {| call_modelId := model;
       call_messages :=
         PList [PDict {[
           "role" := PStr "user";
           "content" :=
             PList [PDict {[ "text" := PStr (S +:+ nl +:+ nl +:+ "User: " +:+ U) ]}]
         ]}] |} in
  (sent (generate_ai_response (Some c) S U model) = [request]
   ∧ sent (Experiment.generate_ai_response c S U model) = [request])
  ∧ ∀ (r o m seg : gmap string pyval) (rest : list pyval) (v : pyval),
      converse c model (call_messages request) = Ok (PDict r) →
      r !! "output" = Some (PDict o) →
      o !! "message" = Some (PDict m) →
      m !! "content" = Some (PList (PDict seg :: rest)) →
      seg !! "text" = Some v →
      outcome (generate_ai_response (Some c) S U model) = Ok v
      ∧ outcome (Experiment.generate_ai_response c S U model) = Ok v.
Proof.
  intros request. rewrite backend_client_run, experiment_client_run.
  split; [by split|].
  intros r o m seg rest v Hresp Hr Ho Hm Hseg. unfold outcome. cbn [snd].
  change (call_messages request) with (messages S U) in Hresp.
  rewrite Hresp. simpl.
  assert (response_text (PDict r) = Ok v) as ->; [|by split].
  apply response_text_Ok. by exists r, o, m, seg, rest.
Qed.

(** C7, at the input on which the code departs from it.  A response that
    is well formed up to the text, but whose text is the number 5 instead
    of a string, raises nothing inside the client: both clients return the
    number as it is, not [None].  The handler takes it for a report,
    fails the validation of the response model, and raises
    [ValidationError] where with no client configured it returns the
    fallback report. *)
Theorem malformed_text_not_absorbed (S U model : string) :
  (outcome (generate_ai_response (Some replies_number) S U model) = Ok (PInt 5)
   ∧ outcome (Experiment.generate_ai_response replies_number S U model) = Ok (PInt 5))
  ∧ outcome (generate_report (Some replies_number) {| attempts := [sign_error] |})
    = Raise ValidationError
  ∧ outcome (generate_report None {| attempts := [sign_error] |})
    = Ok {| report := fallback_report [sign_error] |}.
Proof.
  split; [by split|].
  assert (format_attempts_for_ai [sign_error]
          = Ok (nl +:+ four_lines "Algebra" "silly" "sign error" "15" +:+ nl)) as Hfmt.
  { rewrite format_attempts_for_ai_spec. reflexivity. }
  rewrite !generate_report_outcome. cbn [attempts]. rewrite Hfmt. by split.
Qed.

(** C1, at the input on which the code departs from it.  With the
    attempt list [[{"error_type": "silly", "question": null}]] the
    handler returns no report at all, configured client or not: the
    formatter raises before any client is consulted, and nothing is
    sent. *)
Theorem report_lost_on_null_question (bedrock : option client) :
  generate_report bedrock {| attempts := [null_question] |}
  = ([], Raise AttributeError).
Proof.
  unfold Backend.generate_report.
  assert (format_attempts_for_ai [null_question] = Raise AttributeError) as Hfmt.
  { rewrite format_attempts_for_ai_spec. reflexivity. }
  cbn [attempts]. by rewrite Hfmt.
Qed.

(** C2, at the input on which the code departs from it.  On a record
    that is a mistake and whose [question] is null the formatter raises
    [AttributeError], and so does the handler. *)
Theorem formatter_raises_on_null_question :
  format_attempts_for_ai [null_question] = Raise AttributeError
  ∧ outcome (generate_report None {| attempts := [null_question] |})
    = Raise AttributeError.
Proof.
  assert (format_attempts_for_ai [null_question] = Raise AttributeError) as Hfmt.
  { rewrite format_attempts_for_ai_spec. reflexivity. }
  split; [exact Hfmt|]. rewrite generate_report_outcome. cbn [attempts].
  by rewrite Hfmt.
Qed.

End Clients.

(** ** Concrete runs *)

(** The end-to-end scenario of the specification: one silly mistake and no
    client configured give the fallback report with 1, 1 and 0. *)
Example end_to_end_fallback :
  Backend.generate_report sample_repr None {| attempts := [sign_error] |}
  = ([], Ok {| report := Backend.fallback_template "1" "1" "0" |}).
Proof. vm_compute. reflexivity. Qed.

(** Two silly mistakes, one concept error and one correct answer. *)
Example fallback_counts_example :
  let l : list attempt :=
    [ {[ "error_type" := PStr "silly" ]}; {[ "error_type" := PStr "silly" ]};
      {[ "error_type" := PStr "concept" ]}; {[ "error_type" := PStr "none" ]} ] in
  Backend.fallback_report sample_repr l = Backend.fallback_template "4" "2" "1".
Proof. vm_compute. reflexivity. Qed.

Example generation_precedence_example :
  Backend.generate_report sample_repr (Some replies_X) {| attempts := [sign_error] |}
  = ([{| call_modelId := default_model_id;
         call_messages :=
           messages system_prompt
             (nl +:+ four_lines "Algebra" "silly" "sign error" "15" +:+ nl) |}],
     Ok {| report := "X" |}).
Proof. vm_compute. reflexivity. Qed.

(** C3, as stated, fails: an attempt whose error type is the empty string
    has the field, not null and not ["none"], yet the formatter collects
    no block for it. *)
Lemma block_count_counterexample :
  ∃ blocks : list string,
    Backend.format_loop sample_repr [empty_error_type] [] = Ok blocks
    ∧ Backend.format_attempts_for_ai sample_repr [empty_error_type] = Ok no_mistakes
    ∧ length blocks = 0
    ∧ length (List.filter present_not_none [empty_error_type]) = 1.
Proof. exists []. repeat split; vm_compute; reflexivity. Qed.

Lemma block_count_witness :
  let l := [sign_error; empty_error_type; null_explanation] in
  let out :=
    String.concat nl
      [ nl +:+ four_lines "Algebra" "silly" "sign error" "15" +:+ nl;
        nl +:+ four_lines "Algebra" "concept" "None" "7" +:+ nl ] in
  Backend.format_attempts_for_ai sample_repr l = Ok out
  ∧ ∃ blocks : list string,
      Backend.format_loop sample_repr l [] = Ok blocks
      ∧ out = match blocks with
              | [] => no_mistakes
              | _ => String.concat nl blocks
              end
      ∧ length blocks = length (List.filter included l).
Proof.
  intros l out. split; [vm_compute; reflexivity|].
  apply (block_count sample_repr l out). vm_compute. reflexivity.
Defined.

Lemma no_mistakes_sentinel_witness :
  let l : list attempt :=
    [ ∅; {[ "error_type" := PNone ]}; {[ "error_type" := PStr "none" ]} ] in
  Forall no_error l
  ∧ Backend.format_attempts_for_ai sample_repr l
    = Ok "No mistakes found in the provided attempts. All questions were answered correctly!".
Proof.
  intros l.
  assert (Forall no_error l) as Hall.
  { constructor; [left; reflexivity|].
    constructor; [right; left; reflexivity|].
    constructor; [right; right; reflexivity|].
    constructor. }
  split; [exact Hall|]. exact (no_mistakes_sentinel sample_repr l Hall).
Defined.

Lemma blocks_layout_witness :
  let l := [sign_error; ∅; {[ "error_type" := PStr "concept" ]}] in
  let out :=
    String.concat nl
      [ nl +:+ four_lines "Algebra" "silly" "sign error" "15" +:+ nl;
        nl +:+ four_lines "Unknown" "concept" "No explanation provided" "Unknown" +:+ nl ] in
  Backend.format_attempts_for_ai sample_repr l = Ok out
  ∧ ∃ blocks : list string,
      out = match blocks with
            | [] => no_mistakes
            | _ => String.concat nl blocks
            end
      ∧ Forall2
          (λ (a : attempt) (b : string),
             ∃ topic : string,
               b = nl +:+
                   four_lines topic
                     (Spec.field_text sample_repr (a !! "error_type") "Unknown")
                     (Spec.field_text sample_repr (a !! "explanation")
                        "No explanation provided")
                     (Spec.field_text sample_repr (a !! "question_id") "Unknown") +:+
                   nl
               ∧ (a !! "question" = None → topic = "Unknown")
               ∧ (∀ q : gmap string pyval, a !! "question" = Some (PDict q) →
                    topic = Spec.field_text sample_repr (q !! "topic") "Unknown"))
          (List.filter included l) blocks.
Proof.
  intros l out. split; [vm_compute; reflexivity|].
  apply (blocks_layout sample_repr l out). vm_compute. reflexivity.
Defined.

Lemma null_explanation_rendered_witness :
  let l := [sign_error; null_explanation] in
  let blocks :=
    [ nl +:+ four_lines "Algebra" "silly" "sign error" "15" +:+ nl;
      nl +:+ four_lines "Algebra" "concept" "None" "7" +:+ nl ] in
  (Backend.format_loop sample_repr l [] = Ok blocks
   ∧ List.filter included l !! 1 = Some null_explanation
   ∧ null_explanation !! "explanation" = Some PNone)
  ∧ ∃ topic error_type question_id : string,
      blocks !! 1
      = Some (nl +:+ four_lines topic error_type "None" question_id +:+ nl)
      ∧ "None" ≠ "No explanation provided"
      ∧ (null_explanation !! "question_id" = Some PNone → question_id = "None")
      ∧ (null_explanation !! "question_id" = None → question_id = "Unknown").
Proof.
  intros l blocks.
  assert (Backend.format_loop sample_repr l [] = Ok blocks) as H1
    by (vm_compute; reflexivity).
  assert (List.filter included l !! 1 = Some null_explanation) as H2
    by (vm_compute; reflexivity).
  assert (null_explanation !! "explanation" = Some PNone) as H3
    by (vm_compute; reflexivity).
  split; [by repeat split|].
  exact (null_explanation_rendered sample_repr l blocks 1 null_explanation H1 H2 H3).
Defined.

Lemma falsy_error_type_excluded_witness :
  (empty_error_type !! "error_type" = Some (PStr EmptyString)
   ∧ py_truthy (PStr EmptyString) = false)
  ∧ Backend.is_mistake empty_error_type = Ok false
  ∧ Backend.format_loop sample_repr ([sign_error] ++ empty_error_type :: [null_explanation]) []
    = Backend.format_loop sample_repr ([sign_error] ++ [null_explanation]) []
  ∧ Backend.format_attempts_for_ai sample_repr
      ([sign_error] ++ empty_error_type :: [null_explanation])
    = Backend.format_attempts_for_ai sample_repr ([sign_error] ++ [null_explanation]).
Proof.
  split; [split; vm_compute; reflexivity|].
  apply (falsy_error_type_excluded sample_repr empty_error_type (PStr EmptyString)
           [sign_error] [null_explanation]); vm_compute; reflexivity.
Defined.

Lemma fallback_counts_witness :
  let l : list attempt := [sign_error; null_explanation] in
  let a : attempt := {[ "error_type" := PStr "none" ]} in
  (a !! "error_type" = None ∨ a !! "error_type" = Some (PStr "none"))
  ∧ Backend.fallback_report sample_repr (a :: l)
    = "**Overall Summary:**" +:+ nl +:+
      "Based on your recent practice sessions, you completed 3 questions. You made 1 silly mistakes and 1 concept errors." +:+ nl +:+
      nl +:+
      "**Key Areas for Improvement:**" +:+ nl +:+
      "- Focus on double-checking your work to avoid silly mistakes" +:+ nl +:+
      "- Review fundamental concepts where you had difficulties" +:+ nl +:+
      "- Practice more problems in topics where you made errors" +:+ nl +:+
      nl +:+
      "**General Advice:**" +:+ nl +:+
      "• Take your time when working through problems" +:+ nl +:+
      "• Show all working steps to catch errors early" +:+ nl +:+
      "• Review your mistakes to understand what went wrong" +:+ nl +:+
      "• Practice regularly to build confidence" +:+ nl +:+
      nl +:+
      "Remember: Every mistake is a learning opportunity. Keep practicing and you'll continue to improve!" +:+ nl +:+
      nl +:+
      "*Note: This is a basic report. For detailed AI analysis, please check your AWS Bedrock configuration.*".
Proof.
  intros l a.
  assert (a !! "error_type" = None ∨ a !! "error_type" = Some (PStr "none")) as Ha
    by (right; vm_compute; reflexivity).
  split; [exact Ha|]. exact (proj2 (fallback_counts sample_repr l) a Ha).
Defined.

Lemma client_fails_softly_witness :
  (converse unreachable default_model_id (messages "S" "U")
   = Raise (ClientError "EndpointConnectionError")
   ∧ converse malformed default_model_id (messages "S" "U")
     = Ok (PDict {[ "stopReason" := PStr "end_turn" ]})
   ∧ response_text (PDict {[ "stopReason" := PStr "end_turn" ]})
     = Raise (KeyError (PStr "output")))
  ∧ outcome (Backend.generate_ai_response (Some unreachable) "S" "U" default_model_id)
    = Ok PNone
  ∧ outcome (Experiment.generate_ai_response malformed "S" "U" default_model_id)
    = Ok PNone
  ∧ outcome (Backend.generate_report sample_repr (Some malformed)
               {| attempts := [sign_error] |})
    = outcome (Backend.generate_report sample_repr None {| attempts := [sign_error] |}).
Proof.
  split; [repeat split; vm_compute; reflexivity|].
  pose proof (client_fails_softly sample_repr "S" "U" default_model_id) as [_ Hsoft].
  split; [|split].
  - destruct (Hsoft unreachable) as (_ & Hraise & _).
    apply (Hraise (ClientError "EndpointConnectionError")). reflexivity.
  - destruct (Hsoft malformed) as (_ & _ & Hbad & _).
    apply (Hbad (PDict {[ "stopReason" := PStr "end_turn" ]})
             (KeyError (PStr "output"))); vm_compute; reflexivity.
  - destruct (Hsoft malformed) as (_ & _ & _ & Hsame).
    apply Hsame. intros txt _. vm_compute. reflexivity.
Defined.

Lemma client_request_and_reply_witness :
  let reply : gmap string pyval :=
    {[ "output" :=
         PDict {[ "message" :=
           PDict {[ "role" := PStr "assistant";
                    "content" := PList [PDict {[ "text" := PStr "X" ]}] ]} ]} ]} in
  converse replies_X default_model_id (messages "S" "U") = Ok (PDict reply)
  ∧ outcome (Backend.generate_ai_response (Some replies_X) "S" "U" default_model_id)
    = Ok (PStr "X")
  ∧ outcome (Experiment.generate_ai_response replies_X "S" "U" default_model_id)
    = Ok (PStr "X").
Proof.
  intros reply. split; [reflexivity|].
  apply (proj2 (client_request_and_reply replies_X "S" "U" default_model_id)
           reply
           {[ "message" :=
                PDict {[ "role" := PStr "assistant";
                         "content" := PList [PDict {[ "text" := PStr "X" ]}] ]} ]}
           {[ "role" := PStr "assistant";
              "content" := PList [PDict {[ "text" := PStr "X" ]}] ]}
           {[ "text" := PStr "X" ]} [] (PStr "X"));
    vm_compute; reflexivity.
Defined.

(** ** Further properties of the formatter and the handler *)

Lemma concat_app_nonempty (sep : string) (l1 l2 : list string) :
  l1 ≠ [] → l2 ≠ [] →
  String.concat sep (l1 ++ l2) = String.concat sep l1 +:+ sep +:+ String.concat sep l2.
Proof.
  intros H1 H2. induction l1 as [|x l1 IH]; [done|].
  destruct l1 as [|y l1].
  - destruct l2 as [|z l2]; [done|]. reflexivity.
  - change (x +:+ sep +:+ String.concat sep ((y :: l1) ++ l2)
            = (x +:+ sep +:+ String.concat sep (y :: l1)) +:+ sep +:+ String.concat sep l2).
    rewrite IH by done. by rewrite !append_assoc.
Qed.

Section MoreFormatter.

Variable py_repr : pyval → string.

#[local] Abbreviation format_loop := (Backend.format_loop py_repr).
#[local] Abbreviation format_attempts_for_ai := (Backend.format_attempts_for_ai py_repr).
#[local] Abbreviation fallback_report := (Backend.fallback_report py_repr).
#[local] Abbreviation generate_report := (Backend.generate_report py_repr).
#[local] Abbreviation block_of := (Spec.block_of py_repr).

Lemma block_of_is_Some (a : attempt) :
  is_Some (block_of a)
  ↔ a !! "question" = None ∨ ∃ q : gmap string pyval, a !! "question" = Some (PDict q).
Proof.
  unfold Spec.block_of, Spec.topic_text. split.
  - intros [b Hb]. destruct (a !! "question") as [[| | | | | |q]|]; try done; eauto.
  - intros [-> | [q ->]]; simpl; eauto.
Qed.

Lemma Forall_filter_included (P : attempt → Prop) (l : list attempt) :
  Forall P (List.filter included l) ↔ Forall (λ a, included a = true → P a) l.
Proof.
  induction l as [|a l IH]; simpl; [by split; constructor|].
  destruct (included a) eqn:Hin.
  - rewrite !Forall_cons, IH. split; intros [Ha Hl]; (split; [|exact Hl]); auto.
  - rewrite Forall_cons, IH. split; [|by intros [_ Hl]].
    intros Hl. split; [congruence|exact Hl].
Qed.

(** X1. On a list whose mistakes have plain fields (no list or dict under
    the four rendered keys, no integer of more than 4300 digits), the
    formatter returns exactly when every mistake has its [question] absent
    or a dict, and otherwise raises [AttributeError] and nothing else. *)
Theorem formatter_returns_iff (l : list attempt) :
  Forall (λ a : attempt, included a = true → plain_attempt a = true) l →
  ((∃ out : string, format_attempts_for_ai l = Ok out)
   ↔ Forall
       (λ a : attempt,
          included a = true →
          a !! "question" = None
          ∨ ∃ q : gmap string pyval, a !! "question" = Some (PDict q))
       l)
  ∧ ∀ e : exn, format_attempts_for_ai l = Raise e → e = AttributeError.
Proof.
  intros _.
  rewrite format_attempts_for_ai_spec, <- Forall_filter_included.
  split; [|by destruct (mapM _ _) as [[|??]|]; intros e [= <-]].
  rewrite <- (Forall_iff (is_Some ∘ block_of)) by (intros a; apply block_of_is_Some).
  rewrite <- mapM_is_Some.
  destruct (mapM block_of (List.filter included l)) as [[|b bs]|]; split;
    try (intros [? ?]; done); eauto.
Qed.

(** X3. Formatting a concatenation: the blocks are those of the first
    list followed by those of the second, and when both lists hold a
    mistake the output is the two outputs joined by a newline. *)
Theorem format_app (l1 l2 : list attempt) (b1 b2 : list string) :
  format_loop l1 [] = Ok b1 →
  format_loop l2 [] = Ok b2 →
  format_loop (l1 ++ l2) [] = Ok (b1 ++ b2)
  ∧ (b1 ≠ [] → b2 ≠ [] →
     ∃ out1 out2 : string,
       format_attempts_for_ai l1 = Ok out1
       ∧ format_attempts_for_ai l2 = Ok out2
       ∧ format_attempts_for_ai (l1 ++ l2) = Ok (out1 +:+ nl +:+ out2))
  ∧ (b1 = [] → format_attempts_for_ai (l1 ++ l2) = format_attempts_for_ai l2)
  ∧ (b2 = [] → format_attempts_for_ai (l1 ++ l2) = format_attempts_for_ai l1).
Proof.
  unfold Backend.format_attempts_for_ai.
  rewrite !format_loop_spec, List.filter_app.
  destruct (mapM block_of (List.filter included l1)) as [k1|] eqn:E1; [|done].
  destruct (mapM block_of (List.filter included l2)) as [k2|] eqn:E2; [|done].
  intros [= <-] [= <-].
  assert (mapM block_of (List.filter included l1 ++ List.filter included l2)
          = Some (k1 ++ k2)) as ->.
  { apply mapM_Some, Forall2_app; by apply mapM_Some. }
  cbn [app]. split; [reflexivity|]. split; [|split].
  - intros H1 H2. exists (String.concat nl k1), (String.concat nl k2).
    cbn [mbind result_bind].
    destruct k1 as [|x k1]; [done|]. destruct k2 as [|y k2]; [done|].
    split; [reflexivity|]. split; [reflexivity|].
    change ((x :: k1) ++ y :: k2) with (x :: (k1 ++ y :: k2)).
    cbn [mret result_ret]. f_equal.
    by rewrite <- (concat_app_nonempty nl (x :: k1) (y :: k2)).
  - by intros ->.
  - intros ->. by rewrite app_nil_r.
Qed.

End MoreFormatter.

Section MoreHandler.

Variable py_repr : pyval → string.

#[local] Abbreviation format_loop := (Backend.format_loop py_repr).
#[local] Abbreviation format_attempts_for_ai := (Backend.format_attempts_for_ai py_repr).
#[local] Abbreviation fallback_report := (Backend.fallback_report py_repr).
#[local] Abbreviation generate_report := (Backend.generate_report py_repr).
#[local] Abbreviation block_of := (Spec.block_of py_repr).

Lemma py_eq_str_true (v : pyval) (s : string) : py_eq_str v s = true → v = PStr s.
Proof.
  destruct v as [| | | |t| |]; simpl; try done.
  by intros ->%String.eqb_eq.
Qed.

Lemma insert_other_included (k : string) (v : pyval) (a : attempt) :
  k ∉ read_keys → included (<[k:=v]> a) = included a.
Proof.
  intros Hk. unfold included, error_type_of.
  rewrite lookup_insert_ne; [done|]. intros ->. apply Hk. set_solver.
Qed.

Lemma insert_other_block_of (k : string) (v : pyval) (a : attempt) :
  k ∉ read_keys → block_of (<[k:=v]> a) = block_of a.
Proof.
  intros Hk. unfold Spec.block_of, Spec.topic_text.
  rewrite !lookup_insert_ne; [done|..]; intros ->; apply Hk; set_solver.
Qed.

Lemma insert_other_count (kind k : string) (v : pyval) (a : attempt) (l1 l2 : list attempt) :
  k ∉ read_keys →
  Backend.count_error_type kind (l1 ++ <[k:=v]> a :: l2)
  = Backend.count_error_type kind (l1 ++ a :: l2).
Proof.
  intros Hk. unfold Backend.count_error_type. rewrite !List.filter_app. simpl.
  rewrite lookup_insert_ne; [|intros ->; apply Hk; set_solver].
  destruct (py_eq_str (default PNone (a !! "error_type")) kind);
    by rewrite !map_app, !foldr_app.
Qed.

(** X2. A field other than [error_type], [question], [explanation] and
    [question_id] (an [id], a [timestamp]) has no influence on the
    handler: adding or changing it in any attempt changes neither the
    request sent nor the report. *)
Theorem report_ignores_other_fields
    (bedrock : option client) (k : string) (v : pyval)
    (a : attempt) (l1 l2 : list attempt) :
  k ∉ ["error_type"; "question"; "explanation"; "question_id"] →
  generate_report bedrock {| attempts := l1 ++ <[k:=v]> a :: l2 |}
  = generate_report bedrock {| attempts := l1 ++ a :: l2 |}.
Proof.
  intros Hk. unfold Backend.generate_report. cbn [attempts].
  assert (format_attempts_for_ai (l1 ++ <[k:=v]> a :: l2)
          = format_attempts_for_ai (l1 ++ a :: l2)) as ->.
  { rewrite !format_attempts_for_ai_spec, !List.filter_app. simpl.
    rewrite (insert_other_included k v a Hk).
    destruct (included a); [|reflexivity].
    assert (∀ pre post,
      mapM block_of (pre ++ <[k:=v]> a :: post) = mapM block_of (pre ++ a :: post))
      as ->; [|reflexivity].
    intros pre post. induction pre as [|x pre IH]; simpl.
    - by rewrite (insert_other_block_of k v a Hk).
    - by rewrite IH. }
  assert (fallback_report (l1 ++ <[k:=v]> a :: l2) = fallback_report (l1 ++ a :: l2))
    as ->; [|reflexivity].
  unfold Backend.fallback_report.
  rewrite !(insert_other_count _ k v a l1 l2 Hk).
  by rewrite !length_app.
Qed.

(** X4. When the formatter returns, the two counts of the fallback report
    together never exceed the number of blocks, which never exceeds the
    number of attempts: every silly or concept attempt is a mistake, and a
    mistake may be of neither kind. *)
Theorem mistake_counts_bounded (l : list attempt) (blocks : list string) :
  format_loop l [] = Ok blocks →
  (Backend.count_error_type "silly" l + Backend.count_error_type "concept" l
   ≤ Z.of_nat (length blocks) ≤ Z.of_nat (length l))%Z.
Proof.
  rewrite format_loop_spec.
  destruct (mapM block_of (List.filter included l)) as [bs|] eqn:E; [|done].
  intros [= <-]. apply mapM_Some, Forall2_length in E. rewrite <- E. clear E bs.
  unfold Backend.count_error_type.
  induction l as [|a l IH]; [done|].
  cbn [List.filter]. fold (error_type_of a).
  destruct (py_eq_str (error_type_of a) "silly") eqn:E1;
    destruct (py_eq_str (error_type_of a) "concept") eqn:E2;
    destruct (included a) eqn:E3;
    try (apply py_eq_str_true in E1; unfold included in E3; rewrite E1 in *; done);
    try (apply py_eq_str_true in E2; unfold included in E3; rewrite E2 in *; done);
    cbn [map foldr length]; lia.
Qed.

(** X5. The handler sends at most one request.  It sends none without a
    client and none when the formatter raises; otherwise it sends exactly
    one, to the model [amazon.nova-pro-v1:0], whose single user message is
    the system prompt, two newlines, "User: " and the formatted text. *)
Theorem report_requests (bedrock : option client) (request : ReportRequest) :
  sent (generate_report bedrock request)
  = match bedrock, format_attempts_for_ai (attempts request) with
    | Some _, Ok txt =>
        [ {| call_modelId := "amazon.nova-pro-v1:0";
             call_messages :=
               PList [PDict {[
                 "role" := PStr "user";
                 "content" :=
                   PList [PDict {[ "text" :=
                     PStr (system_prompt +:+ nl +:+ nl +:+ "User: " +:+ txt) ]}]
               ]}] |} ]
    | _, _ => []
    end.
Proof.
  unfold Backend.generate_report, sent, lift.
  destruct (format_attempts_for_ai (attempts request)) as [txt|e];
    [|by destruct bedrock].
  destruct bedrock as [c|]; [|reflexivity].
  cbn [mbind io_bind]. rewrite backend_client_run, experiment_client_run.
  cbn [app]. destruct (converse c _ _ ≫= response_text) as [v|e]; reflexivity.
Qed.

(** X6. On every attempt list on which the formatter returns, the handler
    returns a report: the client's text when a client is configured and
    replies with a non-empty string, and the fallback report of the same
    list when no client is configured or the client replies [None] or the
    empty string. *)
Theorem report_when_formatter_returns
    (bedrock : option client) (request : ReportRequest) (txt : string) :
  format_attempts_for_ai (attempts request) = Ok txt →
  (∀ s : string,
     bedrock ≠ None →
     outcome (Backend.generate_ai_response bedrock system_prompt txt default_model_id)
     = Ok (PStr s) →
     s ≠ EmptyString →
     outcome (generate_report bedrock request) = Ok {| report := s |})
  ∧ (bedrock = None
     ∨ outcome (Backend.generate_ai_response bedrock system_prompt txt default_model_id)
       = Ok PNone
     ∨ outcome (Backend.generate_ai_response bedrock system_prompt txt default_model_id)
       = Ok (PStr EmptyString) →
     outcome (generate_report bedrock request)
     = Ok {| report := fallback_report (attempts request) |}).
Proof.
  intros Hfmt. split.
  - intros s Hsome Hreply Hs. destruct bedrock as [c|]; [|done].
    by apply (generate_report_precedence py_repr c request txt s).
  - by apply generate_report_fallback.
Qed.

(** X7. A list without any mistake does not spare the call: with a client
    configured the handler still sends its one request, with the sentence
    "No mistakes found..." as the user message. *)
Theorem no_mistakes_still_sent (c : client) (l : list attempt) :
  Forall no_error l →
  sent (generate_report (Some c) {| attempts := l |})
  = [ {| call_modelId := default_model_id;
         call_messages :=
           messages system_prompt
             "No mistakes found in the provided attempts. All questions were answered correctly!" |} ].
Proof.
  intros Hall. unfold Backend.generate_report, sent, lift. cbn [attempts].
  assert (format_attempts_for_ai l = Ok no_mistakes) as ->.
  { rewrite format_attempts_for_ai_spec.
    assert (List.filter included l = []) as ->; [|reflexivity].
    induction Hall as [|a k Ha _ IH]; [reflexivity|].
    simpl. by rewrite (no_error_excluded a Ha). }
  cbn [mbind io_bind]. rewrite backend_client_run, experiment_client_run.
  cbn [app]. destruct (converse c _ _ ≫= response_text) as [v|e]; reflexivity.
Qed.

End MoreHandler.

(** ** Properties of the database handlers *)

Lemma question_by_id_Some (k : Z) (db : Store.database) (q : Store.Question.t) :
  Store.question_by_id k db = Some q →
  q ∈ Store.questions db ∧ Store.Question.question_id q = k.
Proof.
  unfold Store.question_by_id. intros [Hin Hk]%List.find_some.
  split; [by apply list_elem_of_In|]. by apply Z.eqb_eq.
Qed.

Lemma question_by_id_None (k : Z) (db : Store.database) :
  Store.question_by_id k db = None
  ↔ ∀ q : Store.Question.t, q ∈ Store.questions db → Store.Question.question_id q ≠ k.
Proof.
  unfold Store.question_by_id. split.
  - intros Hnone q Hq%list_elem_of_In.
    apply (List.find_none _ _ Hnone) in Hq. by apply Z.eqb_neq.
  - intros Hall. destruct (List.find _ _) as [q|] eqn:E; [|done].
    apply List.find_some in E as [Hin Hk]. apply Z.eqb_eq in Hk.
    by destruct (Hall q (proj2 (list_elem_of_In _ _) Hin)).
Qed.

Lemma question_by_id_is_Some (k : Z) (db : Store.database) (q : Store.Question.t) :
  q ∈ Store.questions db → Store.Question.question_id q = k →
  is_Some (Store.question_by_id k db).
Proof.
  intros Hin Hk. destruct (Store.question_by_id k db) eqn:E; [by eexists|].
  by destruct (proj1 (question_by_id_None k db) E q Hin).
Qed.

Lemma ErrorType_call_Some (s : string) (m : Store.ErrorType) :
  Store.ErrorType_call s = Some m ↔ s = Store.value m.
Proof.
  unfold Store.ErrorType_call.
  destruct (String.eqb_spec s "silly") as [->|?];
    [destruct m; split; (done || by intros [= <-])|].
  destruct (String.eqb_spec s "concept") as [->|?];
    [destruct m; split; (done || by intros [= <-])|].
  destruct (String.eqb_spec s "none") as [->|?];
    [destruct m; split; (done || by intros [= <-])|].
  split; [done|]. by destruct m; intros ->.
Qed.

(** X8. The error-type enumeration round-trips: looking a member up by
    its value gives the member back, and a string that designates a member
    is that member's value; every other string is refused. *)
Theorem ErrorType_round_trip :
  (∀ m : Store.ErrorType, Store.ErrorType_call (Store.value m) = Some m)
  ∧ (∀ (s : string) (m : Store.ErrorType),
       Store.ErrorType_call s = Some m → Store.value m = s)
  ∧ (∀ s : string,
       s ≠ "silly" → s ≠ "concept" → s ≠ "none" → Store.ErrorType_call s = None).
Proof.
  split; [by intros []|]. split.
  - intros s m Hm. symmetry. by apply ErrorType_call_Some.
  - intros s H1 H2 H3. destruct (Store.ErrorType_call s) as [m|] eqn:E; [|done].
    apply ErrorType_call_Some in E. by destruct m.
Qed.

Section StoreProperties.

Variable py_repr : pyval → string.
Variable isoformat : Store.datetime → string.
Variable attempt_pk : list Store.Attempt.t → Z.
Variable question_pk : list Store.Question.t → Z.

#[local] Abbreviation create_attempt := (Store.create_attempt attempt_pk).
#[local] Abbreviation get_all_attempts := (Store.get_all_attempts isoformat).
#[local] Abbreviation main := (Store.main question_pk).

(** X9. For an id in the signed 64-bit range, which is what the database
    driver accepts as a bound value, [create_attempt] answers 404
    "Question not found" exactly when no question has the id, whatever the
    error type sent (an invalid one included), and then the database is
    left as it was. *)
Theorem create_attempt_not_found
    (utcnow : Store.datetime) (question_id : Z)
    (error_type explanation : option string) (db : Store.database) :
  (- 2 ^ 63 ≤ question_id < 2 ^ 63)%Z →
  (∀ q : Store.Question.t,
     q ∈ Store.questions db → Store.Question.question_id q ≠ question_id)
  ↔ create_attempt utcnow question_id error_type explanation db
    = (Store.HTTPException 404 "Question not found", db).
Proof.
  intros _.
  rewrite <- question_by_id_None. unfold Store.create_attempt.
  destruct (Store.question_by_id question_id db) as [q|]; [|done].
  split; [done|].
  destruct (py_truthy (Config.optional_str error_type)); [|done].
  by destruct (error_type ≫= Store.ErrorType_call).
Qed.

(** X10. For a question that exists, [create_attempt] answers 400
    "Invalid error_type", leaving the database as it was, exactly when the
    error type sent is a non-empty string other than "silly", "concept"
    and "none". *)
Theorem create_attempt_invalid
    (utcnow : Store.datetime) (question_id : Z)
    (error_type explanation : option string) (db : Store.database)
    (q : Store.Question.t) :
  q ∈ Store.questions db →
  Store.Question.question_id q = question_id →
  create_attempt utcnow question_id error_type explanation db
  = (Store.HTTPException 400 "Invalid error_type", db)
  ↔ ∃ s : string,
      error_type = Some s
      ∧ s ≠ EmptyString ∧ s ≠ "silly" ∧ s ≠ "concept" ∧ s ≠ "none".
Proof.
  intros Hin Hk. unfold Store.create_attempt.
  destruct (question_by_id_is_Some question_id db q Hin Hk) as [q' ->].
  destruct error_type as [s|]; simpl; [|split; [done|by intros (? & ? & _)]].
  destruct (String.eqb_spec s EmptyString) as [->|Hs]; simpl.
  { split; [done|]. by intros (? & [= <-] & ? & _). }
  destruct (Store.ErrorType_call s) as [m|] eqn:E.
  - split; [done|]. intros (? & [= <-] & _ & H1 & H2 & H3).
    apply ErrorType_call_Some in E. by destruct m.
  - split; [|done]. intros _. exists s. split; [done|]. split; [done|].
    repeat split; intros ->; done.
Qed.

(** X11. For a question that exists and an error type that is absent,
    empty or one of the three values, [create_attempt] appends exactly one
    row to the attempts, with the key the database assigns, the question
    id, the parsed error type (null for an absent or empty one), the
    explanation as sent and the clock reading; it returns that key, and
    the questions are untouched. *)
Theorem create_attempt_stores
    (utcnow : Store.datetime) (question_id : Z)
    (error_type explanation : option string) (db : Store.database)
    (q : Store.Question.t) :
  q ∈ Store.questions db →
  Store.Question.question_id q = question_id →
  error_type = None ∨ error_type = Some EmptyString
  ∨ (∃ m : Store.ErrorType, error_type = Some (Store.value m)) →
  create_attempt utcnow question_id error_type explanation db
  = (Store.Returns
       {[ "message" := PStr "Attempt created successfully";
          "id" := PInt (attempt_pk (Store.attempts db)) ]},
     {| Store.questions := Store.questions db;
        Store.attempts :=
          Store.attempts db ++
          [ {| Store.Attempt.id := attempt_pk (Store.attempts db);
               Store.Attempt.question_id := Some question_id;
               Store.Attempt.error_type :=
                 match error_type with
                 | Some "silly" => Some Store.silly
                 | Some "concept" => Some Store.concept
                 | Some "none" => Some Store.none
                 | _ => None
                 end;
               Store.Attempt.explanation := explanation;
               Store.Attempt.timestamp := Some utcnow |} ] |}).
Proof.
  intros Hin Hk Hvalid. unfold Store.create_attempt.
  destruct (question_by_id_is_Some question_id db q Hin Hk) as [q' ->].
  destruct Hvalid as [-> | [-> | [m ->]]]; [reflexivity..|].
  by destruct m.
Qed.

(** Listing goes row by row. *)
Lemma get_all_attempts_app (clock : Store.Attempt.t → Store.datetime)
    (qs : list Store.Question.t) (rows1 rows2 : list Store.Attempt.t) :
  get_all_attempts clock {| Store.questions := qs; Store.attempts := rows1 ++ rows2 |}
  = get_all_attempts clock {| Store.questions := qs; Store.attempts := rows1 |}
    ++ get_all_attempts clock {| Store.questions := qs; Store.attempts := rows2 |}.
Proof. unfold Store.get_all_attempts. cbn [Store.attempts]. apply omap_app. Qed.

(** X12. Round trip through the store: after [create_attempt] succeeds,
    [get_all_attempts] lists what it listed before followed by one entry
    for the new attempt, with the returned key, the error type as sent
    (null for an absent or empty one), the explanation as sent, the
    timestamp of the insert suffixed with "Z" and the topic and id of the
    question. *)
Theorem created_attempt_listed
    (utcnow : Store.datetime) (clock : Store.Attempt.t → Store.datetime)
    (question_id : Z) (error_type explanation : option string)
    (db : Store.database) (q : Store.Question.t) :
  Store.question_by_id question_id db = Some q →
  error_type = None ∨ error_type = Some EmptyString
  ∨ (∃ m : Store.ErrorType, error_type = Some (Store.value m)) →
  ∃ entry : gmap string pyval,
    get_all_attempts clock
      (create_attempt utcnow question_id error_type explanation db).2
    = get_all_attempts clock db ++ [entry]
    ∧ (create_attempt utcnow question_id error_type explanation db).1
      = Store.Returns {[ "message" := PStr "Attempt created successfully";
                         "id" := PInt (attempt_pk (Store.attempts db)) ]}
    ∧ entry !! "id" = Some (PInt (attempt_pk (Store.attempts db)))
    ∧ entry !! "question_id" = Some (PInt question_id)
    ∧ entry !! "error_type"
      = Some (match error_type with
              | Some s => if String.eqb s EmptyString then PNone else PStr s
              | None => PNone
              end)
    ∧ entry !! "explanation" = Some (Config.optional_str explanation)
    ∧ entry !! "timestamp" = Some (PStr (isoformat utcnow +:+ "Z"))
    ∧ entry !! "question"
      = Some (PDict {[ "topic" := PStr (Store.Question.topic q);
                       "question_id" := PInt question_id ]}).
Proof.
  intros Hq Hvalid.
  destruct (question_by_id_Some _ _ _ Hq) as [_ Hk].
  unfold Store.create_attempt. rewrite Hq.
  assert (∃ member : option Store.ErrorType,
    (if py_truthy (Config.optional_str error_type)
     then match error_type ≫= Store.ErrorType_call with
          | Some m => Store.Returns (Some m)
          | None => Store.HTTPException 400 "Invalid error_type"
          end
     else Store.Returns None) = Store.Returns member
    ∧ match member with
      | Some m => PStr (Store.value m)
      | None => PNone
      end
      = match error_type with
        | Some s => if String.eqb s EmptyString then PNone else PStr s
        | None => PNone
        end) as (member & -> & Hshown).
  { destruct Hvalid as [-> | [-> | [m ->]]].
    - by exists None.
    - by exists None.
    - exists (Some m). by destruct m. }
  cbn [fst snd]. destruct db as [qs rows]. cbn [Store.questions Store.attempts].
  rewrite get_all_attempts_app.
  eexists. split; [f_equal; unfold Store.get_all_attempts; cbn|].
  - unfold Store.question_by_id in *. cbn [Store.questions] in *.
    rewrite Hq. cbn. reflexivity.
  - split; [reflexivity|]. rewrite Hshown, Hk.
    repeat split; reflexivity.
Qed.

(** Every listed entry carries its question as a dict, and an error type
    that is null or the value of a member. *)
Lemma listed_entries_shape
    (clock : Store.Attempt.t → Store.datetime) (db : Store.database) :
  Forall
    (λ entry : gmap string pyval,
       (∃ qd : gmap string pyval, entry !! "question" = Some (PDict qd))
       ∧ (entry !! "error_type" = Some PNone
          ∨ ∃ m : Store.ErrorType, entry !! "error_type" = Some (PStr (Store.value m))))
    (get_all_attempts clock db).
Proof.
  unfold Store.get_all_attempts.
  induction (Store.attempts db) as [|a rows IH]; [constructor|].
  cbn [omap list_omap].
  destruct (Store.Attempt.question_id a ≫= λ k, Store.question_by_id k db) as [q|];
    cbn [mbind option_bind]; [|exact IH].
  constructor; [|exact IH]. split; [by eexists|].
  destruct (Store.Attempt.error_type a) as [m|]; [right; by exists m|by left].
Qed.

Lemma shaped_entry_block (entry : gmap string pyval) :
  (∃ qd : gmap string pyval, entry !! "question" = Some (PDict qd)) →
  is_Some (Spec.block_of py_repr entry).
Proof. intros [qd Hq]. unfold Spec.block_of, Spec.topic_text. rewrite Hq. by eexists. Qed.

Lemma shaped_entry_counts (entry : gmap string pyval) :
  entry !! "error_type" = Some PNone
  ∨ (∃ m : Store.ErrorType, entry !! "error_type" = Some (PStr (Store.value m))) →
  (Z.of_nat (if included entry then 1 else 0)
   = (if py_eq_str (default PNone (entry !! "error_type")) "silly" then 1 else 0)
     + (if py_eq_str (default PNone (entry !! "error_type")) "concept" then 1 else 0))%Z.
Proof.
  unfold included, error_type_of. intros [-> | [m ->]]; [reflexivity|].
  by destruct m.
Qed.

(** X13. The list served by [get_all_attempts] is always accepted by the
    report pipeline: the formatter returns on it, and the handler without
    a client returns the fallback report.  Every entry carries its
    question as a dict, so the lookup of the topic cannot fail. *)
Theorem listed_attempts_report
    (clock : Store.Attempt.t → Store.datetime) (db : Store.database) :
  (∃ out : string,
     Backend.format_attempts_for_ai py_repr (get_all_attempts clock db) = Ok out)
  ∧ outcome (Backend.generate_report py_repr None
               {| attempts := get_all_attempts clock db |})
    = Ok {| report := Backend.fallback_report py_repr (get_all_attempts clock db) |}.
Proof.
  assert (∃ out : string,
    Backend.format_attempts_for_ai py_repr (get_all_attempts clock db) = Ok out)
    as [out Hout].
  { rewrite format_attempts_for_ai_spec.
    assert (is_Some (mapM (Spec.block_of py_repr)
                       (List.filter included (get_all_attempts clock db))))
      as [bs ->]; [|destruct bs; by eexists].
    apply mapM_is_Some. apply Forall_filter_included.
    eapply Forall_impl; [apply listed_entries_shape|].
    intros entry [Hq _] _. by apply shaped_entry_block. }
  split; [by exists out|].
  rewrite generate_report_outcome. cbn [attempts]. rewrite Hout. reflexivity.
Qed.

(** X14. On the list served by [get_all_attempts] the formatter and the
    fallback report agree: the number of blocks is the number of silly
    mistakes plus the number of concept errors, since a stored error type
    is one of the three members or null. *)
Theorem listed_attempts_counts_agree
    (clock : Store.Attempt.t → Store.datetime) (db : Store.database) :
  ∃ blocks : list string,
    Backend.format_loop py_repr (get_all_attempts clock db) [] = Ok blocks
    ∧ Z.of_nat (length blocks)
      = (Backend.count_error_type "silly" (get_all_attempts clock db)
         + Backend.count_error_type "concept" (get_all_attempts clock db))%Z.
Proof.
  rewrite format_loop_spec.
  pose proof (listed_entries_shape clock db) as Hshape.
  assert (is_Some (mapM (Spec.block_of py_repr)
                     (List.filter included (get_all_attempts clock db))))
    as [bs E].
  { apply mapM_is_Some. apply Forall_filter_included.
    eapply Forall_impl; [exact Hshape|].
    intros entry [Hq _] _. by apply shaped_entry_block. }
  rewrite E. exists bs. split; [reflexivity|].
  apply mapM_Some, Forall2_length in E. rewrite <- E. clear E bs.
  unfold Backend.count_error_type.
  induction Hshape as [|entry l [_ Hentry] _ IH]; [reflexivity|].
  cbn [List.filter]. pose proof (shaped_entry_counts entry Hentry) as Hc.
  destruct (included entry);
    destruct (py_eq_str (default PNone (entry !! "error_type")) "silly");
    destruct (py_eq_str (default PNone (entry !! "error_type")) "concept");
    cbn [map foldr length]; cbn in Hc; lia.
Qed.

Lemma question_by_id_questions (k : Z) (db db' : Store.database) :
  Store.questions db' = Store.questions db →
  Store.question_by_id k db' = Store.question_by_id k db.
Proof. unfold Store.question_by_id. by intros ->. Qed.

(** X15. Referential integrity is kept: when every attempt row refers to
    a question of the table, this still holds after [create_attempt]
    (whatever it answers) and after the initialisation block, and
    [get_all_attempts] then lists one entry per attempt row, none being
    lost in the join. *)
Theorem attempts_stay_linked
    (utcnow : Store.datetime) (clock : Store.Attempt.t → Store.datetime)
    (question_id : Z) (error_type explanation : option string)
    (db : Store.database) :
  linked db →
  linked (create_attempt utcnow question_id error_type explanation db).2
  ∧ linked (main db)
  ∧ length (get_all_attempts clock db) = length (Store.attempts db).
Proof.
  intros Hlinked. split; [|split].
  - unfold Store.create_attempt.
    destruct (Store.question_by_id question_id db) as [q|] eqn:Hq; [|exact Hlinked].
    destruct (if py_truthy (Config.optional_str error_type)
              then match error_type ≫= Store.ErrorType_call with
                   | Some m => Store.Returns (Some m)
                   | None => Store.HTTPException 400 "Invalid error_type"
                   end
              else Store.Returns None) as [member|status detail]; [|exact Hlinked].
    cbn [snd]. intros a. cbn [Store.attempts]. rewrite elem_of_app.
    intros [Ha | ->%list_elem_of_singleton].
    + destruct (Hlinked a Ha) as (k & Hk & Hsome). exists k. split; [exact Hk|].
      by rewrite (question_by_id_questions k db).
    + exists question_id. split; [reflexivity|].
      rewrite (question_by_id_questions question_id db), Hq by reflexivity.
      by eexists.
  - unfold Store.main. destruct (Store.questions db) as [|q0 qs] eqn:Hqs;
      [|exact Hlinked].
    cbn [length Nat.eqb]. intros a Ha. cbn [Store.attempts] in Ha.
    destruct (Hlinked a Ha) as (k & _ & [q Hq]).
    unfold Store.question_by_id in Hq. by rewrite Hqs in Hq.
  - unfold Store.get_all_attempts. unfold linked in Hlinked.
    induction (Store.attempts db) as [|a rows IH]; [reflexivity|].
    cbn [omap list_omap].
    destruct (Hlinked a) as (k & Hk & [q Hq]); [by left|].
    rewrite Hk. cbn [mbind option_bind]. rewrite Hq.
    cbn [mbind option_bind length]. f_equal.
    apply IH. intros b Hb. apply Hlinked. by right.
Qed.

Lemma filter_topic_nil (topic : string) (qs : list Store.Question.t) :
  List.filter (λ q, String.eqb (Store.Question.topic q) topic) qs = []
  ↔ ∀ q : Store.Question.t, q ∈ qs → Store.Question.topic q ≠ topic.
Proof.
  induction qs as [|q qs IH]; [by split; [intros _ ? ?%elem_of_nil|]|].
  cbn [List.filter]. destruct (String.eqb_spec (Store.Question.topic q) topic) as [Ht|Ht].
  - split; [done|]. intros Hall. destruct (Hall q); [by left|done].
  - rewrite IH. split.
    + intros Hall x [->|Hx]%elem_of_cons; [done|by apply Hall].
    + intros Hall x Hx. apply Hall. by right.
Qed.

(** X16. [get_questions_by_topic] answers 404 "No questions found for
    this topic" exactly when no question has the topic; otherwise it
    returns one dict per question of that topic, in table order, each with
    the id, the topic and the two images of its question. *)
Theorem questions_by_topic_rows (topic : string) (db : Store.database) :
  (Store.get_questions_by_topic topic db
   = Store.HTTPException 404 "No questions found for this topic"
   ↔ ∀ q : Store.Question.t, q ∈ Store.questions db → Store.Question.topic q ≠ topic)
  ∧ ∀ rows : list (gmap string pyval),
      Store.get_questions_by_topic topic db = Store.Returns rows →
      rows ≠ []
      ∧ Forall2
          (λ (q : Store.Question.t) (row : gmap string pyval),
             row !! "question_id" = Some (PInt (Store.Question.question_id q))
             ∧ row !! "topic" = Some (PStr topic)
             ∧ row !! "question_img" = Some (PStr (Store.Question.question_img q))
             ∧ row !! "answer_img" = Some (PStr (Store.Question.answer_img q)))
          (filter (λ q, Store.Question.topic q = topic) (Store.questions db))
          rows.
Proof.
  unfold Store.get_questions_by_topic. rewrite <- filter_topic_nil.
  assert (filter (λ q, Store.Question.topic q = topic) (Store.questions db)
          = List.filter (λ q, String.eqb (Store.Question.topic q) topic)
              (Store.questions db)) as ->.
  { induction (Store.questions db) as [|q qs IH]; [reflexivity|].
    rewrite filter_cons. cbn [List.filter].
    destruct (String.eqb_spec (Store.Question.topic q) topic);
      destruct (decide (Store.Question.topic q = topic)); try done; by rewrite IH. }
  assert (Forall (λ q, Store.Question.topic q = topic)
            (List.filter (λ q, String.eqb (Store.Question.topic q) topic)
               (Store.questions db))) as Htopic.
  { apply Forall_forall. intros q [_ Hq%String.eqb_eq]%list_elem_of_In%List.filter_In.
    exact Hq. }
  set (matching := List.filter (λ q, String.eqb (Store.Question.topic q) topic)
                     (Store.questions db)) in *.
  set (row_of := λ q : Store.Question.t,
         ({[ "question_id" := PInt (Store.Question.question_id q);
             "topic" := PStr (Store.Question.topic q);
             "question_img" := PStr (Store.Question.question_img q);
             "answer_img" := PStr (Store.Question.answer_img q) ]}
          : gmap string pyval)).
  assert (Forall2
            (λ (q : Store.Question.t) (row : gmap string pyval),
               row !! "question_id" = Some (PInt (Store.Question.question_id q))
               ∧ row !! "topic" = Some (PStr topic)
               ∧ row !! "question_img" = Some (PStr (Store.Question.question_img q))
               ∧ row !! "answer_img" = Some (PStr (Store.Question.answer_img q)))
            matching (map row_of matching)) as Hrows.
  { clearbody matching. induction Htopic as [|q l Hq _ IH]; constructor; [|exact IH].
    rewrite <- Hq. repeat split; reflexivity. }
  destruct matching as [|q0 qs]; [by split|].
  split; [by split|]. intros rows [= <-]. split; [done|exact Hrows].
Qed.

(** X17. The topics served by [get_topics] are exactly those for which
    [get_questions_by_topic] answers with rows rather than 404, and no
    topic is served twice. *)
Theorem topics_match_questions (db : Store.database) :
  NoDup (Store.get_topics db)
  ∧ ∀ topic : string,
      topic ∈ Store.get_topics db
      ↔ ∃ rows : list (gmap string pyval),
          Store.get_questions_by_topic topic db = Store.Returns rows.
Proof.
  split; [unfold Store.get_topics; rewrite reverse_Permutation;
          apply NoDup_remove_dups|].
  intros topic.
  unfold Store.get_topics, Store.get_questions_by_topic.
  rewrite elem_of_reverse, elem_of_remove_dups, elem_of_reverse, list_elem_of_fmap.
  destruct (List.filter _ (Store.questions db)) as [|q0 qs] eqn:E.
  - split; [|by intros [? ?]]. intros (q & -> & Hq).
    by destruct (proj1 (filter_topic_nil _ _) E q Hq).
  - split; [by eexists|]. intros _. exists q0.
    assert (List.In q0 (List.filter
              (λ q, String.eqb (Store.Question.topic q) topic) (Store.questions db)))
      as [Hin Ht%String.eqb_eq]%List.filter_In by (rewrite E; by left).
    split; [done|by apply list_elem_of_In].
Qed.

(** X18. The initialisation block seeds only an empty table: it leaves a
    database with questions as it is, never touches the attempts, keeps
    the questions it found as a prefix, leaves the table non-empty, and
    running it a second time changes nothing. *)
Theorem main_idempotent (db : Store.database) :
  main (main db) = main db
  ∧ (Store.questions db ≠ [] → main db = db)
  ∧ Store.attempts (main db) = Store.attempts db
  ∧ Store.questions (main db) ≠ []
  ∧ ∃ added : list Store.Question.t,
      Store.questions (main db) = Store.questions db ++ added.
Proof.
  assert (∀ d : Store.database, Store.questions d ≠ [] → main d = d) as Hkeep.
  { intros d Hd. unfold Store.main. by destruct (Store.questions d). }
  assert (Store.questions (main db) ≠ []) as Hfull.
  { unfold Store.main. destruct (Store.questions db) as [|q0 qs] eqn:E;
      cbn [length Nat.eqb]; [|by rewrite E].
    cbn [Store.questions Store.sample_questions foldl app]. done. }
  split; [by apply Hkeep|]. split; [apply Hkeep|]. split; [|split; [exact Hfull|]].
  - unfold Store.main. by destruct (Store.questions db).
  - unfold Store.main. destruct (Store.questions db) as [|q0 qs] eqn:E;
      cbn [length Nat.eqb].
    + eexists. cbn [Store.questions app]. reflexivity.
    + exists []. by rewrite E, app_nil_r.
Qed.

End StoreProperties.

(** ** Properties of the client configuration *)

Section ConfigProperties.

Variable py_repr : pyval → string.
Variable boto3_client :
  string → string → option string → option string → result client.

(** X19. When either credential is missing from the environment or set to
    the empty string, backend.py builds no handle and never calls into
    the service binding, so start-up cannot fail there; the handler then
    sends no request, and on every list the formatter accepts it returns
    the fallback report. *)
Theorem missing_credentials_fallback
    (environ : gmap string string) (request : ReportRequest) :
  environ !! "AWS_ACCESS_KEY_ID" = None
  ∨ environ !! "AWS_ACCESS_KEY_ID" = Some EmptyString
  ∨ environ !! "AWS_SECRET_ACCESS_KEY" = None
  ∨ environ !! "AWS_SECRET_ACCESS_KEY" = Some EmptyString →
  Config.backend_bedrock boto3_client environ = Ok None
  ∧ ∀ bedrock : option client,
      Config.backend_bedrock boto3_client environ = Ok bedrock →
      sent (Backend.generate_report py_repr bedrock request) = []
      ∧ ∀ txt : string,
          Backend.format_attempts_for_ai py_repr (attempts request) = Ok txt →
          outcome (Backend.generate_report py_repr bedrock request)
          = Ok {| report := Backend.fallback_report py_repr (attempts request) |}.
Proof.
  intros Hmissing.
  assert (Config.backend_bedrock boto3_client environ = Ok None) as Hnone.
  { unfold Config.backend_bedrock, Config.getenv.
    destruct Hmissing as [H | [H | [H | H]]]; rewrite H; try reflexivity;
      destruct (environ !! "AWS_ACCESS_KEY_ID") as [[|c key]|]; reflexivity. }
  split; [exact Hnone|]. intros bedrock. rewrite Hnone. intros [= <-]. split.
  - unfold Backend.generate_report, sent, lift.
    by destruct (Backend.format_attempts_for_ai py_repr (attempts request)).
  - intros txt Hfmt. rewrite generate_report_outcome, Hfmt. reflexivity.
Qed.

(** X20. With both credentials set to non-empty strings, backend.py asks
    the service binding for a [bedrock-runtime] handle with exactly those
    credentials and the region of [AWS_REGION], "us-east-1" when that
    variable is unset; it is configured with what the binding returns,
    and fails to start when the binding raises.  experiment.py makes the
    same call. *)
Theorem configured_handle
    (environ : gmap string string) (key secret : string) :
  environ !! "AWS_ACCESS_KEY_ID" = Some key →
  environ !! "AWS_SECRET_ACCESS_KEY" = Some secret →
  key ≠ EmptyString →
  secret ≠ EmptyString →
  Config.experiment_bedrock boto3_client environ
  = boto3_client "bedrock-runtime"
      (match environ !! "AWS_REGION" with Some region => region | None => "us-east-1" end)
      (Some key) (Some secret)
  ∧ Config.backend_bedrock boto3_client environ
    = match Config.experiment_bedrock boto3_client environ with
      | Ok handle => Ok (Some handle)
      | Raise e => Raise e
      end.
Proof.
  intros Hkey Hsecret Hk Hs.
  unfold Config.backend_bedrock, Config.experiment_bedrock, Config.getenv,
    Config.getenv_default.
  rewrite Hkey, Hsecret. cbn [Config.optional_str from_option py_truthy].
  destruct (String.eqb_spec key EmptyString) as [?|_]; [done|].
  destruct (String.eqb_spec secret EmptyString) as [?|_]; [done|].
  cbn [negb andb]. split; [by destruct (environ !! "AWS_REGION")|].
  by destruct (boto3_client _ _ _ _).
Qed.

End ConfigProperties.

(** ** Concrete runs of the further properties *)

Lemma report_ignores_other_fields_witness :
  ("timestamp" ∉ ["error_type"; "question"; "explanation"; "question_id"])
  ∧ Backend.generate_report sample_repr (Some replies_X)
      {| attempts :=
           [null_explanation] ++ <["timestamp" := PStr "2025-03-14T12:00:00Z"]> sign_error :: [] |}
    = Backend.generate_report sample_repr (Some replies_X)
        {| attempts := [null_explanation] ++ sign_error :: [] |}.
Proof.
  assert ("timestamp" ∉ ["error_type"; "question"; "explanation"; "question_id"]) as Hk.
  { apply (bool_decide_unpack _). vm_compute. exact I. }
  split; [exact Hk|].
  exact (report_ignores_other_fields sample_repr (Some replies_X) "timestamp"
           (PStr "2025-03-14T12:00:00Z") sign_error [null_explanation] [] Hk).
Defined.

Lemma format_app_witness :
  let l1 := [sign_error] in
  let l2 := [empty_error_type; null_explanation] in
  let b1 := [nl +:+ four_lines "Algebra" "silly" "sign error" "15" +:+ nl] in
  let b2 := [nl +:+ four_lines "Algebra" "concept" "None" "7" +:+ nl] in
  (Backend.format_loop sample_repr l1 [] = Ok b1
   ∧ Backend.format_loop sample_repr l2 [] = Ok b2)
  ∧ Backend.format_loop sample_repr (l1 ++ l2) [] = Ok (b1 ++ b2).
Proof.
  intros l1 l2 b1 b2.
  assert (Backend.format_loop sample_repr l1 [] = Ok b1) as H1
    by (vm_compute; reflexivity).
  assert (Backend.format_loop sample_repr l2 [] = Ok b2) as H2
    by (vm_compute; reflexivity).
  split; [by split|]. exact (proj1 (format_app sample_repr l1 l2 b1 b2 H1 H2)).
Defined.

Lemma mistake_counts_bounded_witness :
  let l := [sign_error; {[ "error_type" := PStr "method" ]}; ∅] in
  let blocks :=
    [ nl +:+ four_lines "Algebra" "silly" "sign error" "15" +:+ nl;
      nl +:+ four_lines "Unknown" "method" "No explanation provided" "Unknown" +:+ nl ] in
  Backend.format_loop sample_repr l [] = Ok blocks
  ∧ (Backend.count_error_type "silly" l + Backend.count_error_type "concept" l
     ≤ Z.of_nat (length blocks) ≤ Z.of_nat (length l))%Z.
Proof.
  intros l blocks.
  assert (Backend.format_loop sample_repr l [] = Ok blocks) as H
    by (vm_compute; reflexivity).
  split; [exact H|]. exact (mistake_counts_bounded sample_repr l blocks H).
Defined.

Lemma report_when_formatter_returns_witness :
  let request := {| attempts := [sign_error] |} in
  let txt := nl +:+ four_lines "Algebra" "silly" "sign error" "15" +:+ nl in
  Backend.format_attempts_for_ai sample_repr (attempts request) = Ok txt
  ∧ outcome (Backend.generate_report sample_repr (Some replies_X) request)
    = Ok {| report := "X" |}
  ∧ outcome (Backend.generate_report sample_repr (Some unreachable) request)
    = Ok {| report := Backend.fallback_report sample_repr (attempts request) |}.
Proof.
  intros request txt.
  assert (Backend.format_attempts_for_ai sample_repr (attempts request) = Ok txt) as H
    by (vm_compute; reflexivity).
  split; [exact H|]. split.
  - apply (proj1 (report_when_formatter_returns sample_repr (Some replies_X) request txt H)
             "X"); [done|vm_compute; reflexivity|done].
  - apply (proj2 (report_when_formatter_returns sample_repr (Some unreachable) request txt H)).
    right. left. vm_compute. reflexivity.
Defined.

Lemma no_mistakes_still_sent_witness :
  let l : list attempt := [ ∅; {[ "error_type" := PStr "none" ]} ] in
  Forall no_error l
  ∧ sent (Backend.generate_report sample_repr (Some replies_X) {| attempts := l |})
    = [ {| call_modelId := default_model_id;
           call_messages :=
             messages system_prompt
               "No mistakes found in the provided attempts. All questions were answered correctly!" |} ].
Proof.
  intros l.
  assert (Forall no_error l) as Hall.
  { constructor; [left; reflexivity|].
    constructor; [right; right; reflexivity|]. constructor. }
  split; [exact Hall|]. exact (no_mistakes_still_sent sample_repr replies_X l Hall).
Defined.

Lemma create_attempt_invalid_witness :
  let q :=
    {| Store.Question.question_id := 1; Store.Question.topic := "Algebra";
       Store.Question.question_img := "q1.png";
       Store.Question.answer_img := "a1.png" |} in
  (q ∈ Store.questions algebra_db ∧ Store.Question.question_id q = 1%Z)
  ∧ Store.create_attempt sample_pk noon 1 (Some "method") None algebra_db
    = (Store.HTTPException 400 "Invalid error_type", algebra_db).
Proof.
  intros q.
  assert (q ∈ Store.questions algebra_db) as Hin by (left).
  split; [by split|].
  apply (proj2 (create_attempt_invalid sample_pk noon 1 (Some "method") None
                  algebra_db q Hin eq_refl)).
  exists "method". repeat split; done.
Defined.

Lemma create_attempt_stores_witness :
  let q :=
    {| Store.Question.question_id := 2; Store.Question.topic := "Geometry";
       Store.Question.question_img := "q2.png";
       Store.Question.answer_img := "a2.png" |} in
  (q ∈ Store.questions algebra_db ∧ Store.Question.question_id q = 2%Z)
  ∧ Store.create_attempt sample_pk noon 2 (Some EmptyString) (Some "guessed") algebra_db
    = (Store.Returns {[ "message" := PStr "Attempt created successfully";
                        "id" := PInt 2 ]},
       {| Store.questions := Store.questions algebra_db;
          Store.attempts :=
            Store.attempts algebra_db ++
            [ {| Store.Attempt.id := 2;
                 Store.Attempt.question_id := Some 2%Z;
                 Store.Attempt.error_type := None;
                 Store.Attempt.explanation := Some "guessed";
                 Store.Attempt.timestamp := Some noon |} ] |}).
Proof.
  intros q.
  assert (q ∈ Store.questions algebra_db) as Hin by (right; left).
  split; [by split|].
  exact (create_attempt_stores sample_pk noon 2 (Some EmptyString) (Some "guessed")
           algebra_db q Hin eq_refl (or_intror (or_introl eq_refl))).
Defined.

Lemma created_attempt_listed_witness :
  let q :=
    {| Store.Question.question_id := 1; Store.Question.topic := "Algebra";
       Store.Question.question_img := "q1.png";
       Store.Question.answer_img := "a1.png" |} in
  Store.question_by_id 1 algebra_db = Some q
  ∧ ∃ entry : gmap string pyval,
      Store.get_all_attempts sample_isoformat (λ _, noon)
        (Store.create_attempt sample_pk noon 1 (Some "concept") None algebra_db).2
      = Store.get_all_attempts sample_isoformat (λ _, noon) algebra_db ++ [entry]
      ∧ entry !! "error_type" = Some (PStr "concept")
      ∧ entry !! "explanation" = Some PNone
      ∧ entry !! "question"
        = Some (PDict {[ "topic" := PStr "Algebra"; "question_id" := PInt 1 ]}).
Proof.
  intros q.
  assert (Store.question_by_id 1 algebra_db = Some q) as Hq by reflexivity.
  split; [exact Hq|].
  destruct (created_attempt_listed sample_isoformat sample_pk noon (λ _, noon) 1
              (Some "concept") None algebra_db q Hq
              (or_intror (or_intror (ex_intro _ Store.concept eq_refl))))
    as (entry & Hlist & _ & _ & _ & Herr & Hexp & _ & Hquestion).
  exists entry. repeat split; assumption.
Defined.

Lemma attempts_stay_linked_witness :
  linked algebra_db
  ∧ linked (Store.create_attempt sample_pk noon 2 (Some "silly") None algebra_db).2
  ∧ linked (Store.main sample_pk algebra_db)
  ∧ length (Store.get_all_attempts sample_isoformat (λ _, noon) algebra_db) = 1.
Proof.
  assert (linked algebra_db) as Hlinked.
  { intros a Ha. apply list_elem_of_singleton in Ha as ->.
    exists 1%Z. split; [reflexivity|]. by eexists. }
  split; [exact Hlinked|].
  exact (attempts_stay_linked sample_isoformat sample_pk sample_pk noon (λ _, noon) 2
           (Some "silly") None algebra_db Hlinked).
Defined.

Lemma missing_credentials_fallback_witness :
  let environ : gmap string string :=
    {[ "AWS_ACCESS_KEY_ID" := "AKIDEXAMPLE"; "AWS_SECRET_ACCESS_KEY" := EmptyString ]} in
  environ !! "AWS_SECRET_ACCESS_KEY" = Some EmptyString
  ∧ Config.backend_bedrock (λ _ _ _ _, Ok replies_X) environ = Ok None.
Proof.
  intros environ.
  assert (environ !! "AWS_SECRET_ACCESS_KEY" = Some EmptyString) as H by reflexivity.
  split; [exact H|].
  exact (proj1 (missing_credentials_fallback sample_repr (λ _ _ _ _, Ok replies_X) environ
                  {| attempts := [sign_error] |}
                  (or_intror (or_intror (or_intror H))))).
Defined.

Lemma configured_handle_witness :
  let environ : gmap string string :=
    {[ "AWS_ACCESS_KEY_ID" := "AKIDEXAMPLE"; "AWS_SECRET_ACCESS_KEY" := "secret" ]} in
  (environ !! "AWS_ACCESS_KEY_ID" = Some "AKIDEXAMPLE"
   ∧ environ !! "AWS_SECRET_ACCESS_KEY" = Some "secret")
  ∧ Config.backend_bedrock
      (λ _ region _ _, if String.eqb region "us-east-1" then Ok replies_X
                       else Raise (ClientError "InvalidRegionError"))
      environ
    = Ok (Some replies_X).
Proof.
  intros environ. split; [by split|].
  rewrite (proj2 (configured_handle
                    (λ _ region _ _, if String.eqb region "us-east-1" then Ok replies_X
                                     else Raise (ClientError "InvalidRegionError"))
                    environ "AKIDEXAMPLE" "secret" eq_refl eq_refl
                    ltac:(done) ltac:(done))).
  reflexivity.
Defined.

(** The topics of a table that names Algebra, Geometry and Algebra again:
    each once, Algebra first. *)
Example get_topics_first_occurrence :
  Store.get_topics
    {| Store.questions :=
         Store.questions algebra_db ++
         [ {| Store.Question.question_id := 3; Store.Question.topic := "Algebra";
              Store.Question.question_img := "q3.png";
              Store.Question.answer_img := "a3.png" |} ];
       Store.attempts := [] |}
  = ["Algebra"; "Geometry"].
Proof. vm_compute. reflexivity. Qed.

Lemma formatter_returns_iff_witness :
  let l := [sign_error; empty_error_type; null_explanation] in
  Forall (λ a : attempt, included a = true → plain_attempt a = true) l
  ∧ ∃ out : string, Backend.format_attempts_for_ai sample_repr l = Ok out.
Proof.
  intros l.
  assert (Forall (λ a : attempt, included a = true → plain_attempt a = true) l)
    as Hplain.
  { apply List.Forall_cons; [intros _; vm_compute; reflexivity|].
    apply List.Forall_cons; [intros _; vm_compute; reflexivity|].
    apply List.Forall_cons; [intros _; vm_compute; reflexivity|].
    apply List.Forall_nil. }
  split; [exact Hplain|].
  apply (proj2 (proj1 (formatter_returns_iff sample_repr l Hplain))).
  apply List.Forall_cons; [intros _; right; eexists; reflexivity|].
  apply List.Forall_cons; [intros _; left; reflexivity|].
  apply List.Forall_cons; [intros _; right; eexists; reflexivity|].
  apply List.Forall_nil.
Defined.

Lemma create_attempt_not_found_witness :
  (- 2 ^ 63 ≤ 7 < 2 ^ 63)%Z
  ∧ Store.create_attempt sample_pk noon 7 (Some "method") None algebra_db
    = (Store.HTTPException 404 "Question not found", algebra_db).
Proof.
  assert (- 2 ^ 63 ≤ 7 < 2 ^ 63)%Z as Hrange by lia.
  split; [exact Hrange|].
  apply (proj1 (create_attempt_not_found sample_pk noon 7 (Some "method") None
                  algebra_db Hrange)).
  intros q Hq. repeat (apply elem_of_cons in Hq as [->|Hq]; [done|]).
  by apply elem_of_nil in Hq.
Defined.
